(** * Assamese-Translations: the translation handler and its collaborators

    A shallow embedding of [app.py] (the two provider clients, the
    [/translate] handler and the [/history] page) and of the
    [Translation] table of [models.py].

    Python values that reach the code from the outside (the request
    body, the providers' response bodies) are JSON values; Python
    strings are lists of Unicode code points.  Statements that can
    raise live in a small state-and-exception monad over a [world]
    holding the application log, the outbound HTTP calls made so far
    and the rows of the [translations] table. *)

From Stdlib Require Import ZArith NArith List String Ascii Lia.
From stdpp Require Import base decidable list sorting.

Local Open Scope Z_scope.
Set Warnings "-register-all".

(** ** Python strings *)

(** A [str] is a sequence of code points. *)
Definition pystr := list N.

(** An ASCII literal of the source. *)
Definition lit (s : string) : pystr :=
  map N_of_ascii (list_ascii_of_string s).
Arguments lit s%_string.

(** [str.isspace] on one code point (CPython's [_PyUnicode_IsWhitespace]). *)
Definition isspace (c : N) : bool :=
  ((9 <=? c) && (c <=? 13) || (28 <=? c) && (c <=? 32)
   || (c =? 133) || (c =? 160) || (c =? 5760)
   || (8192 <=? c) && (c <=? 8202)
   || (c =? 8232) || (c =? 8233) || (c =? 8239) || (c =? 8287)
   || (c =? 12288))%N.

Fixpoint lstrip (s : pystr) : pystr :=
  match s with
  | [] => []
  | c :: s' => if isspace c then lstrip s' else s
  end.

Definition rstrip (s : pystr) : pystr := rev (lstrip (rev s)).

(** [s.strip()] *)
Definition strip (s : pystr) : pystr := rstrip (lstrip s).

Definition pystr_eqb (a b : pystr) : bool := bool_decide (a = b).

(** ** JSON values, as [json.loads] delivers them *)

(** A Python [float]: not-a-number, an infinity, or [m * 2^e]. *)
Inductive pyfloat :=
| FNaN
| FInf (negative : bool)
| FFin (m e : Z).

Inductive json :=
| JNull
| JBool (b : bool)
| JInt (z : Z)
| JFloat (f : pyfloat)
| JStr (s : pystr)
| JArr (l : list json)
| JObj (d : list (pystr * json)).

(** [d.get(key, default)] on a [dict] kept in insertion order. *)
Fixpoint dict_get (d : list (pystr * json)) (key : pystr) (default : json) : json :=
  match d with
  | [] => default
  | (k, v) :: d' => if pystr_eqb k key then v else dict_get d' key default
  end.

(** [type(v).__name__] *)
Definition type_name (v : json) : string :=
  match v with
  | JNull => "NoneType"
  | JBool _ => "bool"
  | JInt _ => "int"
  | JFloat _ => "float"
  | JStr _ => "str"
  | JArr _ => "list"
  | JObj _ => "dict"
  end.

Definition float_nonzero (f : pyfloat) : bool :=
  match f with
  | FFin m _ => negb (m =? 0)
  | _ => true
  end.

(** [f == z] for a float [f] and an int [z]. *)
Definition float_eq_int (f : pyfloat) (z : Z) : bool :=
  match f with
  | FFin m e => if 0 <=? e then m * 2 ^ e =? z else m =? z * 2 ^ (- e)
  | _ => false
  end.

(** [bool(v)], the truth value the [if] statements test. *)
Definition truthy (v : json) : bool :=
  match v with
  | JNull => false
  | JBool b => b
  | JInt z => negb (z =? 0)
  | JFloat f => float_nonzero f
  | JStr s => negb (pystr_eqb s [])
  | JArr l => match l with [] => false | _ => true end
  | JObj d => match d with [] => false | _ => true end
  end.

(** [v == z] for an int literal [z]. *)
Definition py_eq_int (v : json) (z : Z) : bool :=
  match v with
  | JInt x => x =? z
  | JBool b => Z.b2z b =? z
  | JFloat f => float_eq_int f z
  | _ => false
  end.

(** ** Exceptions *)

(** An instance of a subclass of [Exception].  The handler only asks
    whether it is a [requests.exceptions.Timeout], whether it is a
    [requests.exceptions.ConnectionError] (a [ConnectTimeout] is both),
    and for [str(e)]. *)
Record exn := Exn {
  isinstance_Timeout : bool;
  isinstance_ConnectionError : bool;
  exn_str : pystr
}.

Definition AttributeError (v : json) (attr : string) : exn :=
  Exn false false
      (lit "'" ++ lit (type_name v) ++ lit "' object has no attribute '"
           ++ lit attr ++ lit "'").

Inductive outcome (A : Type) :=
| Ret (a : A)
| Raise (e : exn).
Arguments Ret {A} a.
Arguments Raise {A} e.

(** ** models.py *)

Module models.

(** A row of the [translations] table.  [id] and [created_at] are filled
    in by the storage when the row is inserted. *)
Record Translation := {
  id : Z;
  user_id : option pystr;
  original_text : pystr;
  translated_text : pystr;
  service_used : pystr;
  created_at : Z
}.

End models.

(** ** The world and the collaborators *)

Inductive http_method := GET | POST.

(** The arguments of one [requests.get] / [requests.post] call. *)
Record http_request := {
  method : http_method;
  url : pystr;
  params : list (pystr * pystr);
  json_payload : option json;
  headers : list (pystr * pystr);
  timeout : Z
}.

(** What [requests] hands back: the status code and what
    [response.json()] will do. *)
Record http_response := {
  status_code : Z;
  response_json : outcome json
}.

Inductive level := INFO | ERROR.

Record world := {
  logs : list (level * pystr);
  net : list http_request;
  rows : list models.Translation
}.

(** Everything the code consults but does not own. *)
Record collab := {
  (** [request.get_json()] *)
  request_get_json : outcome json;
  (** what evaluating [current_user.is_authenticated] does: the user
      lookup raises, or the caller is anonymous ([None]), or the caller is
      authenticated and [Some id] holds [current_user.id] *)
  current_user : outcome (option pystr);
  (** [os.environ.get("LIBRETRANSLATE_API_KEY")] *)
  environ_LIBRETRANSLATE_API_KEY : option pystr;
  (** the remote end of an HTTP call: a response, or the exception
      [requests] raises (timeout, connection failure, ...) *)
  network : http_request -> outcome http_response;
  (** the exception the storage raises while the row is built, added
      and committed, if any *)
  db_fault : option exn;
  (** [datetime.now()] *)
  now : Z
}.

(** ** The monad *)

Definition M (A : Type) : Type := world -> outcome A * world.

Definition ret {A} (a : A) : M A := fun w => (Ret a, w).

Definition raise {A} (e : exn) : M A := fun w => (Raise e, w).

Definition bind {A B} (m : M A) (k : A -> M B) : M B :=
  fun w =>
    match m w with
    | (Ret a, w') => k a w'
    | (Raise e, w') => (Raise e, w')
    end.

(** [try: m  except Exception as e: h e] *)
Definition try_except {A} (m : M A) (h : exn -> M A) : M A :=
  fun w =>
    match m w with
    | (Ret a, w') => (Ret a, w')
    | (Raise e, w') => h e w'
    end.

Definition lift {A} (o : outcome A) : M A := fun w => (o, w).

Notation "x <- m ;; k" := (bind m (fun x => k))
  (at level 100, m at next level, right associativity).
Notation "m ;;; k" := (bind m (fun _ => k))
  (at level 100, right associativity).

(** ** Primitives *)

Definition app_logger (l : level) (msg : pystr) : M unit :=
  fun w => (Ret tt, {| logs := logs w ++ [(l, msg)]; net := net w; rows := rows w |}).

Definition app_logger_info := app_logger INFO.
Definition app_logger_error := app_logger ERROR.

(** One outbound HTTP call: recorded, then answered by the network. *)
Definition requests_call (c : collab) (rq : http_request) : M http_response :=
  fun w => (network c rq,
            {| logs := logs w; net := net w ++ [rq]; rows := rows w |}).

(** [v.get(key, default)]: only a [dict] has the method. *)
Definition py_get (v : json) (key : pystr) (default : json) : M json :=
  match v with
  | JObj d => ret (dict_get d key default)
  | _ => raise (AttributeError v "get")
  end.

(** [v.strip()]: only a [str] has the method. *)
Definition py_strip (v : json) : M pystr :=
  match v with
  | JStr s => ret (strip s)
  | _ => raise (AttributeError v "strip")
  end.

Definition next_id (rs : list models.Translation) : Z :=
  foldr Z.max 0 (map models.id rs) + 1.

(** [db.session.add(Translation(user_id=..., original_text=...,
    translated_text=..., service_used=...)); db.session.commit()] *)
Definition db_session_add_commit (c : collab)
    (user_id : pystr) (original_text translated_text service_used : pystr) : M unit :=
  fun w =>
    match db_fault c with
    | Some e => (Raise e, w)
    | None =>
        (Ret tt,
         {| logs := logs w; net := net w;
            rows := rows w ++
              [{| models.id := next_id (rows w);
                  models.user_id := Some user_id;
                  models.original_text := original_text;
                  models.translated_text := translated_text;
                  models.service_used := service_used;
                  models.created_at := now c |}] |})
    end.

(** ** app.py *)

Definition MYMEMORY_API_URL : pystr := lit "https://api.mymemory.translated.net/get".
Definition LIBRETRANSLATE_API_URL : pystr := lit "https://libretranslate.com/translate".

(** The call [translate_with_mymemory] makes. *)
Definition mymemory_request (text : pystr) : http_request :=
  {| method := GET;
     url := MYMEMORY_API_URL;
     params := [(lit "q", text); (lit "langpair", lit "en|as")];
     json_payload := None;
     headers := [];
     timeout := 10 |}.

(** The call [translate_with_libretranslate] makes. *)
Definition libretranslate_request (api_key : option pystr) (text : pystr) : http_request :=
  let translation_data :=
    JObj [(lit "q", JStr text); (lit "source", JStr (lit "en"));
          (lit "target", JStr (lit "as")); (lit "format", JStr (lit "text"))] in
  let headers0 := [(lit "Content-Type", lit "application/json")] in
  let headers1 :=
    match api_key with
    | Some k => if pystr_eqb k [] then headers0
                else headers0 ++ [(lit "Authorization", lit "Bearer " ++ k)]
    | None => headers0
    end in
  {| method := POST;
     url := LIBRETRANSLATE_API_URL;
     params := [];
     json_payload := Some translation_data;
     headers := headers1;
     timeout := 10 |}.

(** The [try] block of [translate_with_mymemory]. *)
Definition translate_with_mymemory_try (c : collab) (text : pystr) : M (option pystr) :=
  response <- requests_call c (mymemory_request text) ;;
  if status_code response =? 200 then
    result <- lift (response_json response) ;;
    responseStatus <- py_get result (lit "responseStatus") JNull ;;
    if py_eq_int responseStatus 200 then
      responseData <- py_get result (lit "responseData") (JObj []) ;;
      translated_text <- py_get responseData (lit "translatedText") (JStr []) ;;
      if truthy translated_text then
        s <- py_strip translated_text ;; ret (Some s)
      else ret None
    else ret None
  else ret None.

Definition translate_with_mymemory (c : collab) (text : pystr) : M (option pystr) :=
  try_except (translate_with_mymemory_try c text)
    (fun e =>
       app_logger_error (lit "MyMemory API error: " ++ exn_str e) ;;;
       ret None).

(** The [try] block of [translate_with_libretranslate]. *)
Definition translate_with_libretranslate_try (c : collab) (text : pystr) : M (option pystr) :=
  let api_key := environ_LIBRETRANSLATE_API_KEY c in
  response <- requests_call c (libretranslate_request api_key text) ;;
  if status_code response =? 200 then
    result <- lift (response_json response) ;;
    translated_text <- py_get result (lit "translatedText") (JStr []) ;;
    if truthy translated_text then
      s <- py_strip translated_text ;; ret (Some s)
    else ret None
  else ret None.

Definition translate_with_libretranslate (c : collab) (text : pystr) : M (option pystr) :=
  try_except (translate_with_libretranslate_try c text)
    (fun e =>
       app_logger_error (lit "LibreTranslate API error: " ++ exn_str e) ;;;
       ret None).

(** [if r:] for what a provider client returns ([None] or a [str]):
    the branch is taken exactly when [r] is a non-empty [str]. *)
Definition if_truthy (r : option pystr) : option pystr :=
  match r with
  | Some s => if pystr_eqb s [] then None else Some s
  | None => None
  end.

(** What a view function returns: the [jsonify]-ed body and the status. *)
Definition response : Type := json * Z.

Definition error_response (msg : string) (status : Z) : response :=
  (JObj [(lit "success", JBool false); (lit "error", JStr (lit msg))], status).

Definition success_response (translated_text text service : pystr) : response :=
  (JObj [(lit "success", JBool true);
         (lit "translated_text", JStr translated_text);
         (lit "original_text", JStr text);
         (lit "service", JStr service)], 200).

(** The [try] block of [translate]. *)
Definition translate_try (c : collab) : M response :=
  data <- lift (request_get_json c) ;;
  text0 <- py_get data (lit "text") (JStr []) ;;
  text <- py_strip text0 ;;
  if negb (truthy (JStr text)) then
    ret (error_response "Please enter some text to translate" 400)
  else
    app_logger_info (lit "Attempting translation with MyMemory API") ;;;
    translated_text <- translate_with_mymemory c text ;;
    match if_truthy translated_text with
    | Some translated_text =>
        (* [if current_user.is_authenticated:], outside the inner [try] *)
        (is_authenticated <- lift (current_user c) ;;
         match is_authenticated with
         | Some current_user_id =>
             try_except
               (db_session_add_commit c current_user_id text translated_text (lit "MyMemory"))
               (fun e => app_logger_error
                           (lit "Failed to save translation history: " ++ exn_str e))
         | None => ret tt
         end) ;;;
        ret (success_response translated_text text (lit "MyMemory"))
    | None =>
        app_logger_info (lit "MyMemory failed, attempting LibreTranslate API") ;;;
        translated_text <- translate_with_libretranslate c text ;;
        match if_truthy translated_text with
        | Some translated_text =>
            (* [if current_user.is_authenticated:], outside the inner [try] *)
            (is_authenticated <- lift (current_user c) ;;
             match is_authenticated with
             | Some current_user_id =>
                 try_except
                   (db_session_add_commit c current_user_id text translated_text
                                          (lit "LibreTranslate"))
                   (fun e => app_logger_error
                               (lit "Failed to save translation history: " ++ exn_str e))
             | None => ret tt
             end) ;;;
            ret (success_response translated_text text (lit "LibreTranslate"))
        | None =>
            ret (error_response
                   "Translation services are currently unavailable. Please try again later."
                   503)
        end
    end.

(** [POST /translate] *)
Definition translate (c : collab) : M response :=
  try_except (translate_try c)
    (fun e =>
       if isinstance_Timeout e then
         ret (error_response "Translation request timed out. Please try again." 504)
       else if isinstance_ConnectionError e then
         ret (error_response
                "Unable to connect to translation service. Please check your internet connection."
                503)
       else
         app_logger_error (lit "Translation error: " ++ exn_str e) ;;;
         ret (error_response "An unexpected error occurred. Please try again." 500)).

(** What the [/history] view returns. *)
Inductive page :=
| redirect (endpoint : pystr)
| render_template (name : pystr) (translations : list models.Translation).

(** [ORDER BY created_at DESC]: [a] may precede [b]. *)
Definition newest_first (a b : models.Translation) : Prop :=
  models.created_at b <= models.created_at a.

#[global] Instance newest_first_dec : RelDecision newest_first.
Proof. intros a b. unfold newest_first. apply _. Defined.

(** [Translation.query.filter_by(user_id=uid)
      .order_by(Translation.created_at.desc()).limit(50).all()] *)
Definition query_history (uid : pystr) (rs : list models.Translation)
  : list models.Translation :=
  take 50 (merge_sort newest_first
             (filter (fun t => models.user_id t = Some uid) rs)).

(** [GET /history].  The view has no [try]: an exception of the user
    lookup leaves it. *)
Definition history (c : collab) (w : world) : outcome page :=
  match current_user c with
  | Raise e => Raise e
  | Ret None => Ret (redirect (lit "replit_auth.login"))
  | Ret (Some current_user_id) =>
      Ret (render_template (lit "history.html")
                           (query_history current_user_id (rows w)))
  end.

(** ** Scenarios *)

Definition w0 : world := {| logs := []; net := []; rows := [] |}.

Definition request_body (text : pystr) : outcome json :=
  Ret (JObj [(lit "text", JStr text)]).

Definition mymemory_ok (translated : pystr) : http_response :=
  {| status_code := 200;
     response_json :=
       Ret (JObj [(lit "responseData", JObj [(lit "translatedText", JStr translated)]);
                  (lit "responseStatus", JInt 200)]) |}.

Definition libretranslate_ok (translated : pystr) : http_response :=
  {| status_code := 200;
     response_json := Ret (JObj [(lit "translatedText", JStr translated)]) |}.

Definition ReadTimeout : exn := Exn true false (lit "Read timed out.").
Definition ConnectTimeout : exn := Exn true true (lit "Connection timed out.").
Definition ConnectionError : exn := Exn false true (lit "Connection refused").
Definition OperationalError : exn := Exn false false (lit "database is locked").
Definition BadRequest : exn := Exn false false (lit "400 Bad Request").

(** A network on which MyMemory answers [a] and LibreTranslate answers [b]. *)
Definition network_of (a b : outcome http_response) (rq : http_request)
  : outcome http_response :=
  if pystr_eqb (url rq) MYMEMORY_API_URL then a else b.

Definition scenario (body : outcome json) (user : option pystr)
    (a b : outcome http_response) (fault : option exn) : collab :=
  {| request_get_json := body;
     current_user := Ret user;
     environ_LIBRETRANSLATE_API_KEY := None;
     network := network_of a b;
     db_fault := fault;
     now := 1700000000 |}.

(** The text of the spec's first scenario. *)
Definition namaskar : pystr := [2472; 2478; 2488; 2509; 2453; 2494; 2544]%N.

(** The same collaborators with another storage behaviour. *)
Definition set_db_fault (c : collab) (fault : option exn) : collab :=
  {| request_get_json := request_get_json c;
     current_user := current_user c;
     environ_LIBRETRANSLATE_API_KEY := environ_LIBRETRANSLATE_API_KEY c;
     network := network c;
     db_fault := fault;
     now := now c |}.

(** The world after one more log entry. *)
Definition logged (l : level) (msg : pystr) (w : world) : world :=
  {| logs := logs w ++ [(l, msg)]; net := net w; rows := rows w |}.

(** The world after one more outbound call. *)
Definition called (rq : http_request) (w : world) : world :=
  {| logs := logs w; net := net w ++ [rq]; rows := rows w |}.

(** A MyMemory answer whose translated text is a single space. *)
Definition blank_mymemory : collab :=
  scenario (request_body (lit "Hello")) None
           (Ret (mymemory_ok (lit " "))) (Raise ReadTimeout) None.

(** A LibreTranslate answer whose translated text is a single space. *)
Definition blank_libretranslate : collab :=
  scenario (request_body (lit "Hello")) None
           (Raise ReadTimeout) (Ret (libretranslate_ok (lit " "))) None.

(** MyMemory times out and LibreTranslate answers with a body that is not JSON. *)
Definition failing_providers : collab :=
  scenario (request_body (lit "Hello")) None
           (Raise ReadTimeout)
           (Ret {| status_code := 200;
                   response_json := Raise (Exn false false (lit "Expecting value")) |})
           None.

(** A caller who is logged in, a MyMemory that answers, a storage that fails. *)
Definition storage_down : collab :=
  scenario (request_body (lit "Hello")) (Some (lit "u1"))
           (Ret (mymemory_ok namaskar)) (Raise ReadTimeout) (Some OperationalError).

(** The same request with a working storage. *)
Definition storage_up : collab :=
  scenario (request_body (lit "Hello")) (Some (lit "u1"))
           (Ret (mymemory_ok namaskar)) (Raise ReadTimeout) None.

Definition row (i : Z) (uid : option pystr) (t : Z) : models.Translation :=
  {| models.id := i; models.user_id := uid;
     models.original_text := lit "Hello"; models.translated_text := namaskar;
     models.service_used := lit "MyMemory"; models.created_at := t |}.

(** A table with rows of two users and one row without a user. *)
Definition some_rows : world :=
  {| logs := []; net := [];
     rows := [row 1 (Some (lit "u1")) 10; row 2 (Some (lit "u2")) 20;
              row 3 (Some (lit "u1")) 30; row 4 None 40;
              row 5 (Some (lit "u1")) 20] |}.

Definition is_str (v : json) : bool :=
  match v with JStr _ => true | _ => false end.

(** A well-formed body of [POST /translate]: an object whose [success]
    flag is a boolean, with the three text fields and status 200 when it
    is true, and an [error] text and an error status when it is false. *)
Definition well_formed (r : response) : bool :=
  match r with
  | (JObj d, status) =>
      match dict_get d (lit "success") JNull with
      | JBool true =>
          (status =? 200)
          && is_str (dict_get d (lit "translated_text") JNull)
          && is_str (dict_get d (lit "original_text") JNull)
          && is_str (dict_get d (lit "service") JNull)
      | JBool false =>
          is_str (dict_get d (lit "error") JNull)
          && ((status =? 400) || (status =? 500) || (status =? 503) || (status =? 504))
      | _ => false
      end
  | _ => false
  end.

Definition msg_attempt_mymemory : pystr := lit "Attempting translation with MyMemory API".
Definition msg_attempt_libretranslate : pystr :=
  lit "MyMemory failed, attempting LibreTranslate API".
Definition msg_unavailable : string :=
  "Translation services are currently unavailable. Please try again later.".
Definition msg_timed_out : string := "Translation request timed out. Please try again.".
Definition msg_unable_to_connect : string :=
  "Unable to connect to translation service. Please check your internet connection.".
Definition msg_unexpected : string := "An unexpected error occurred. Please try again.".
Definition msg_enter_text : string := "Please enter some text to translate".

(** *** The handler in blocks

    The handler saves the history in two places that differ only in the
    service name, and what follows the validation of the text is the
    fallback sequence.  These blocks are named here to state lemmas
    about them; [translate_try_blocks] shows that [translate_try] is
    made of them. *)

(** The world after the history block has run. *)
Definition new_row (c : collab) (uid text translated_text service : pystr) (w : world)
  : models.Translation :=
  {| models.id := next_id (rows w);
     models.user_id := Some uid;
     models.original_text := text;
     models.translated_text := translated_text;
     models.service_used := service;
     models.created_at := now c |}.

Definition saved (c : collab) (text translated_text service : pystr) (w : world) : world :=
  match current_user c with
  | Ret (Some uid) =>
      match db_fault c with
      | Some e => logged ERROR (lit "Failed to save translation history: " ++ exn_str e) w
      | None =>
          {| logs := logs w; net := net w;
             rows := rows w ++ [new_row c uid text translated_text service w] |}
      end
  | _ => w
  end.

Definition save_history (c : collab) (text translated_text service : pystr) : M unit :=
  is_authenticated <- lift (current_user c) ;;
  match is_authenticated with
  | Some current_user_id =>
      try_except
        (db_session_add_commit c current_user_id text translated_text service)
        (fun e => app_logger_error
                    (lit "Failed to save translation history: " ++ exn_str e))
  | None => ret tt
  end.

(** How the handler ends once a provider has returned the text [t] in
    the world [w]: the user lookup raises, or the history block runs and
    the success body is returned. *)
Definition after_success (c : collab) (text t service : pystr) (w : world)
  : outcome response * world :=
  match current_user c with
  | Raise e => (Raise e, w)
  | Ret _ => (Ret (success_response t text service), saved c text t service w)
  end.

Definition try_libretranslate (c : collab) (text : pystr) : M response :=
  app_logger_info (lit "MyMemory failed, attempting LibreTranslate API") ;;;
  translated_text <- translate_with_libretranslate c text ;;
  match if_truthy translated_text with
  | Some translated_text =>
      save_history c text translated_text (lit "LibreTranslate") ;;;
      ret (success_response translated_text text (lit "LibreTranslate"))
  | None => ret (error_response msg_unavailable 503)
  end.

Definition try_providers (c : collab) (text : pystr) : M response :=
  app_logger_info (lit "Attempting translation with MyMemory API") ;;;
  translated_text <- translate_with_mymemory c text ;;
  match if_truthy translated_text with
  | Some translated_text =>
      save_history c text translated_text (lit "MyMemory") ;;;
      ret (success_response translated_text text (lit "MyMemory"))
  | None => try_libretranslate c text
  end.

(** The answer of the [except] clauses to an exception [e]. *)
Definition except_response (e : exn) : response :=
  if isinstance_Timeout e then error_response msg_timed_out 504
  else if isinstance_ConnectionError e then error_response msg_unable_to_connect 503
  else error_response msg_unexpected 500.

(** A provider that answers with a status other than 200 and a body
    that would otherwise be accepted. *)
Definition rate_limited : collab :=
  scenario (request_body (lit "Hello")) None
           (Ret {| status_code := 429;
                   response_json := response_json (mymemory_ok namaskar) |})
           (Ret {| status_code := 500;
                   response_json := response_json (libretranslate_ok namaskar) |})
           None.

(** MyMemory answers 200 with a translation, but with its
    [responseStatus] as the string "200". *)
Definition status_as_string : collab :=
  scenario (request_body (lit "Hello")) None
           (Ret {| status_code := 200;
                   response_json :=
                     Ret (JObj [(lit "responseData",
                                 JObj [(lit "translatedText", JStr namaskar)]);
                                (lit "responseStatus", JStr (lit "200"))]) |})
           (Raise ReadTimeout) None.

(** Both providers answer 200 with a number where the text should be. *)
Definition number_for_text : collab :=
  scenario (request_body (lit "Hello")) None
           (Ret {| status_code := 200;
                   response_json :=
                     Ret (JObj [(lit "responseData",
                                 JObj [(lit "translatedText", JInt 5)]);
                                (lit "responseStatus", JInt 200)]) |})
           (Ret {| status_code := 200;
                   response_json := Ret (JObj [(lit "translatedText", JInt 5)]) |})
           None.

(** The collaborators of [c] with another behaviour of the user lookup. *)
Definition with_current_user (c : collab) (u : outcome (option pystr)) : collab :=
  {| request_get_json := request_get_json c;
     current_user := u;
     environ_LIBRETRANSLATE_API_KEY := environ_LIBRETRANSLATE_API_KEY c;
     network := network c;
     db_fault := db_fault c;
     now := now c |}.

(** MyMemory answers, then the user lookup fails on the storage. *)
Definition lookup_down : collab :=
  with_current_user storage_up (Raise OperationalError).

(** MyMemory fails, LibreTranslate answers, then the user lookup times
    out on a connection. *)
Definition lookup_times_out : collab :=
  with_current_user
    (scenario (request_body (lit "Hello")) None
              (Raise ReadTimeout) (Ret (libretranslate_ok namaskar)) None)
    (Raise ConnectTimeout).

(** The collaborators of [c] with an API key for LibreTranslate. *)
Definition with_api_key (c : collab) (key : option pystr) : collab :=
  {| request_get_json := request_get_json c;
     current_user := current_user c;
     environ_LIBRETRANSLATE_API_KEY := key;
     network := network c;
     db_fault := db_fault c;
     now := now c |}.

(** *** Vocabulary of the further properties *)

(** No whitespace at either end. *)
Definition trimmed (s : pystr) : Prop :=
  (forall ch, head s = Some ch -> isspace ch = false) /\
  (forall ch, last s = Some ch -> isspace ch = false).

(** Made of whitespace only (the empty string included). *)
Definition blank (s : pystr) : Prop := Forall (fun ch => isspace ch = true) s.

(** What every row written by the handler looks like. *)
Definition well_formed_row (r : models.Translation) : Prop :=
  is_Some (models.user_id r) /\
  models.original_text r <> [] /\ trimmed (models.original_text r) /\
  models.translated_text r <> [] /\ trimmed (models.translated_text r) /\
  (models.service_used r = lit "MyMemory" \/
   models.service_used r = lit "LibreTranslate").

(** The rows of the table owned by [uid]. *)
Definition owned (uid : pystr) (rs : list models.Translation) : list models.Translation :=
  filter (fun t => models.user_id t = Some uid) rs.

(** * Properties *)

(** ** The scenarios of the specification *)

Example hello_mymemory :
  fst (translate (scenario (request_body (lit "Hello")) None
                           (Ret (mymemory_ok namaskar)) (Raise ReadTimeout) None) w0)
  = Ret (success_response namaskar (lit "Hello") (lit "MyMemory")).
Proof. vm_compute. reflexivity. Qed.

Example empty_text :
  translate (scenario (request_body []) None
                      (Ret (mymemory_ok namaskar)) (Raise ReadTimeout) None) w0
  = (Ret (error_response msg_enter_text 400), w0).
Proof. vm_compute. reflexivity. Qed.

Example both_time_out :
  fst (translate (scenario (request_body (lit "Hello")) None
                           (Raise ReadTimeout) (Raise ReadTimeout) None) w0)
  = Ret (error_response msg_unavailable 503).
Proof. vm_compute. reflexivity. Qed.

(** ** The provider clients *)

Ltac run :=
  cbv [translate_with_mymemory translate_with_mymemory_try
       translate_with_libretranslate translate_with_libretranslate_try
       try_except bind lift ret raise py_get py_strip requests_call
       app_logger_error app_logger_info app_logger logged called] in *;
  cbn [logs net rows fst snd] in *.

(** A client always returns, makes exactly one call, writes at most one
    log entry and leaves the table alone. *)
Lemma mymemory_run c text w :
  exists r l,
    translate_with_mymemory c text w
    = (Ret r, {| logs := logs w ++ l;
                 net := net w ++ [mymemory_request text];
                 rows := rows w |}).
Proof.
  run.
  repeat case_match; simplify_eq;
    first [ by eexists _, [_] | eexists _, []; by rewrite app_nil_r ].
Qed.

Lemma libretranslate_run c text w :
  exists r l,
    translate_with_libretranslate c text w
    = (Ret r, {| logs := logs w ++ l;
                 net := net w ++ [libretranslate_request
                                    (environ_LIBRETRANSLATE_API_KEY c) text];
                 rows := rows w |}).
Proof.
  run.
  repeat case_match; simplify_eq;
    first [ by eexists _, [_] | eexists _, []; by rewrite app_nil_r ].
Qed.

Lemma truthy_JStr s : truthy (JStr s) = true <-> s <> [].
Proof.
  unfold truthy, pystr_eqb. rewrite negb_true_iff, bool_decide_eq_false. done.
Qed.

Lemma truthy_JStr_false s : truthy (JStr s) = false <-> s = [].
Proof.
  unfold truthy, pystr_eqb. rewrite negb_false_iff, bool_decide_eq_true. done.
Qed.

Lemma if_truthy_Some r s : if_truthy r = Some s <-> r = Some s /\ s <> [].
Proof.
  unfold if_truthy, pystr_eqb.
  destruct r as [t|]; [case_bool_decide; subst|]; intuition congruence.
Qed.

Lemma if_truthy_None r : if_truthy r = None <-> r = None \/ r = Some [].
Proof.
  unfold if_truthy, pystr_eqb.
  destruct r as [t|]; [case_bool_decide; subst|]; intuition congruence.
Qed.

(** Closes the cases of a client in which the text is not returned. *)
Ltac no_text :=
  repeat match goal with
         | E : ?a = ?b, H : ?a = ?c |- _ =>
             lazymatch b with c => fail | _ => rewrite E in H; simplify_eq end
         | E : ?a = _, H : truthy ?a = _ |- _ => rewrite E in H
         end;
  match goal with
  | H : (?x =? 200) = false, E : ?x = 200 |- _ =>
      rewrite E in H; discriminate H
  | H : truthy (JStr ?t) = false, E : ?t <> [] |- _ =>
      apply truthy_JStr_false in H; contradiction
  | _ => congruence
  end.

(** C3 (as amended): each provider client always returns, and it returns
    a text exactly when the HTTP status is 200, the body parses to an
    object (whose [responseStatus] equals 200, for MyMemory), and the
    translated-text field is a non-empty string; the text returned is
    that field trimmed, which is the empty string when the field holds
    only whitespace.  In every other case the client returns [None]. *)
Theorem provider_client_result c text w :
  (exists r w',
     translate_with_mymemory c text w = (Ret r, w') /\
     forall s, r = Some s <->
       exists resp body d t,
         network c (mymemory_request text) = Ret resp /\
         status_code resp = 200 /\
         response_json resp = Ret (JObj body) /\
         py_eq_int (dict_get body (lit "responseStatus") JNull) 200 = true /\
         dict_get body (lit "responseData") (JObj []) = JObj d /\
         dict_get d (lit "translatedText") (JStr []) = JStr t /\
         t <> [] /\ s = strip t) /\
  (exists r w',
     translate_with_libretranslate c text w = (Ret r, w') /\
     forall s, r = Some s <->
       exists resp body t,
         network c (libretranslate_request (environ_LIBRETRANSLATE_API_KEY c) text)
           = Ret resp /\
         status_code resp = 200 /\
         response_json resp = Ret (JObj body) /\
         dict_get body (lit "translatedText") (JStr []) = JStr t /\
         t <> [] /\ s = strip t).
Proof.
  split; run.
  - repeat case_match; simplify_eq; eexists _, _; (split; [reflexivity|]);
      intros s0; split.
    all: try (intros (resp & body & d' & t & Hn & Hs & Hj & Hr & Hd & Ht & Hne & ->);
              simplify_eq; no_text).
    all: try (intros [= <-]).
    all: try discriminate.
    eexists _, _, _, _; repeat split; eauto;
      [by apply Z.eqb_eq | by apply truthy_JStr].
  - repeat case_match; simplify_eq; eexists _, _; (split; [reflexivity|]);
      intros s0; split.
    all: try (intros (resp & body & t & Hn & Hs & Hj & Ht & Hne & ->);
              simplify_eq; no_text).
    all: try (intros [= <-]).
    all: try discriminate.
    eexists _, _, _; repeat split; eauto;
      [by apply Z.eqb_eq | by apply truthy_JStr].
Qed.

Lemma provider_client_result_blank :
  fst (translate_with_mymemory blank_mymemory (lit "Hello") w0) = Ret (Some []).
Proof.
  destruct (provider_client_result blank_mymemory (lit "Hello") w0)
    as [(r & w' & Hrun & Hr) _].
  rewrite Hrun. cbn [fst]. f_equal.
  apply Hr.
  exists (mymemory_ok (lit " ")),
    [(lit "responseData", JObj [(lit "translatedText", JStr (lit " "))]);
     (lit "responseStatus", JInt 200)],
    [(lit "translatedText", JStr (lit " "))], (lit " ").
  repeat split; try (vm_compute; reflexivity). discriminate.
Defined.

(** C3 as stated fails: a translated-text field that holds only
    whitespace makes either client return the empty string, not [None]. *)
Lemma whitespace_field_not_null :
  ~ (forall c text w t,
       network c (mymemory_request text) = Ret (mymemory_ok t) ->
       strip t = [] ->
       fst (translate_with_mymemory c text w) = Ret None) /\
  ~ (forall c text w t,
       network c (libretranslate_request (environ_LIBRETRANSLATE_API_KEY c) text)
         = Ret (libretranslate_ok t) ->
       strip t = [] ->
       fst (translate_with_libretranslate c text w) = Ret None).
Proof.
  split; intros H.
  - specialize (H blank_mymemory (lit "Hello") w0 (lit " ")).
    vm_compute in H. specialize (H eq_refl eq_refl). discriminate H.
  - specialize (H blank_libretranslate (lit "Hello") w0 (lit " ")).
    vm_compute in H. specialize (H eq_refl eq_refl). discriminate H.
Qed.

(** C4: a provider client never raises.  Whatever exception its [try]
    block raises is turned into [None] after an ERROR entry naming the
    provider and carrying [str(e)]; that covers an exception of the HTTP
    call itself (timeout, connection failure, anything else) and a body
    that [response.json()] cannot parse. *)
Theorem provider_client_never_raises c text w :
  ((exists r w', translate_with_mymemory c text w = (Ret r, w')) /\
   (forall e w1,
      translate_with_mymemory_try c text w = (Raise e, w1) ->
      translate_with_mymemory c text w
      = (Ret None, logged ERROR (lit "MyMemory API error: " ++ exn_str e) w1)) /\
   (forall e,
      network c (mymemory_request text) = Raise e ->
      translate_with_mymemory c text w
      = (Ret None, logged ERROR (lit "MyMemory API error: " ++ exn_str e)
                          (called (mymemory_request text) w))) /\
   (forall resp e,
      network c (mymemory_request text) = Ret resp ->
      status_code resp = 200 ->
      response_json resp = Raise e ->
      translate_with_mymemory c text w
      = (Ret None, logged ERROR (lit "MyMemory API error: " ++ exn_str e)
                          (called (mymemory_request text) w)))) /\
  let rq := libretranslate_request (environ_LIBRETRANSLATE_API_KEY c) text in
  ((exists r w', translate_with_libretranslate c text w = (Ret r, w')) /\
   (forall e w1,
      translate_with_libretranslate_try c text w = (Raise e, w1) ->
      translate_with_libretranslate c text w
      = (Ret None, logged ERROR (lit "LibreTranslate API error: " ++ exn_str e) w1)) /\
   (forall e,
      network c rq = Raise e ->
      translate_with_libretranslate c text w
      = (Ret None, logged ERROR (lit "LibreTranslate API error: " ++ exn_str e)
                          (called rq w))) /\
   (forall resp e,
      network c rq = Ret resp ->
      status_code resp = 200 ->
      response_json resp = Raise e ->
      translate_with_libretranslate c text w
      = (Ret None, logged ERROR (lit "LibreTranslate API error: " ++ exn_str e)
                          (called rq w)))).
Proof.
  split; [|intros rq; subst rq]; repeat split.
  - destruct (mymemory_run c text w) as (r & l & H); eauto.
  - intros e w1 H. unfold translate_with_mymemory, try_except. by rewrite H.
  - intros e H. run. by rewrite H.
  - intros resp e H Hs Hj. run. by rewrite H, Hs, Hj.
  - destruct (libretranslate_run c text w) as (r & l & H); eauto.
  - intros e w1 H. unfold translate_with_libretranslate, try_except. by rewrite H.
  - intros e H. run. by rewrite H.
  - intros resp e H Hs Hj. run. by rewrite H, Hs, Hj.
Qed.

Lemma provider_client_never_raises_failing :
  translate_with_mymemory failing_providers (lit "Hello") w0
  = (Ret None,
     logged ERROR (lit "MyMemory API error: " ++ lit "Read timed out.")
            (called (mymemory_request (lit "Hello")) w0)) /\
  translate_with_libretranslate failing_providers (lit "Hello") w0
  = (Ret None,
     logged ERROR (lit "LibreTranslate API error: " ++ lit "Expecting value")
            (called (libretranslate_request None (lit "Hello")) w0)).
Proof.
  destruct (provider_client_never_raises failing_providers (lit "Hello") w0)
    as [(_ & _ & Ha & _) (_ & _ & _ & Hb)].
  split.
  - apply (Ha ReadTimeout). vm_compute. reflexivity.
  - apply (Hb _ (Exn false false (lit "Expecting value")) eq_refl);
      vm_compute; reflexivity.
Defined.

(** ** The request handler *)

Ltac handler :=
  cbv [translate translate_try try_providers try_libretranslate save_history
       try_except bind lift ret raise py_get py_strip
       app_logger_error app_logger_info app_logger logged called
       db_session_add_commit msg_attempt_mymemory msg_attempt_libretranslate] in *;
  cbn [logs net rows fst snd] in *.

Lemma translate_try_blocks c :
  translate_try c
  = (data <- lift (request_get_json c) ;;
     text0 <- py_get data (lit "text") (JStr []) ;;
     text <- py_strip text0 ;;
     if negb (truthy (JStr text)) then ret (error_response msg_enter_text 400)
     else try_providers c text).
Proof. reflexivity. Qed.

Lemma save_history_run c text translated_text service w :
  save_history c text translated_text service w
  = match current_user c with
    | Raise e => (Raise e, w)
    | Ret _ => (Ret tt, saved c text translated_text service w)
    end.
Proof.
  unfold save_history, saved, try_except, bind, lift, db_session_add_commit, new_row.
  destruct (current_user c) as [[uid|]|e]; [destruct (db_fault c)| |]; reflexivity.
Qed.

(** What the fallback sequence does, in terms of what the two clients
    return. *)
Lemma try_providers_run c text w :
  exists rA lA rB lB,
    let rqA := mymemory_request text in
    let rqB := libretranslate_request (environ_LIBRETRANSLATE_API_KEY c) text in
    let wA := {| logs := (logs w ++ [(INFO, msg_attempt_mymemory)]) ++ lA;
                 net := net w ++ [rqA]; rows := rows w |} in
    let wB := {| logs := (logs wA ++ [(INFO, msg_attempt_libretranslate)]) ++ lB;
                 net := net wA ++ [rqB]; rows := rows w |} in
    translate_with_mymemory c text (logged INFO msg_attempt_mymemory w) = (Ret rA, wA) /\
    translate_with_libretranslate c text (logged INFO msg_attempt_libretranslate wA)
    = (Ret rB, wB) /\
    try_providers c text w
    = match if_truthy rA with
      | Some t => after_success c text t (lit "MyMemory") wA
      | None =>
          match if_truthy rB with
          | Some t => after_success c text t (lit "LibreTranslate") wB
          | None => (Ret (error_response msg_unavailable 503), wB)
          end
      end.
Proof.
  destruct (mymemory_run c text (logged INFO msg_attempt_mymemory w))
    as (rA & lA & HA).
  match type of HA with
  | _ = (_, ?W) =>
      destruct (libretranslate_run c text (logged INFO msg_attempt_libretranslate W))
        as (rB & lB & HB)
  end.
  exists rA, lA, rB, lB. cbv zeta.
  split; [exact HA|]. split; [exact HB|].
  cbv [try_providers try_libretranslate save_history try_except bind lift ret
       db_session_add_commit app_logger_info app_logger_error app_logger logged
       msg_attempt_mymemory msg_attempt_libretranslate] in *.
  cbn [logs net rows] in *.
  rewrite HA. destruct (if_truthy rA) as [t|].
  - unfold after_success, saved, new_row, logged.
    destruct (current_user c) as [[uid|]|e]; [destruct (db_fault c)| |];
      reflexivity.
  - cbn [logs net rows]. rewrite HB.
    destruct (if_truthy rB) as [t|]; [|done].
    unfold after_success, saved, new_row, logged.
    destruct (current_user c) as [[uid|]|e]; [destruct (db_fault c)| |];
      reflexivity.
Qed.

(** The world after the [except] clauses have answered [e]: only the
    last clause logs. *)
Lemma translate_of_try c w :
  translate c w
  = match translate_try c w with
    | (Ret resp, w') => (Ret resp, w')
    | (Raise e, w') =>
        (Ret (except_response e),
         if isinstance_Timeout e || isinstance_ConnectionError e then w'
         else logged ERROR (lit "Translation error: " ++ exn_str e) w')
    end.
Proof.
  unfold translate, try_except, except_response.
  destruct (translate_try c w) as [[resp|e] w']; [done|].
  by destruct (isinstance_Timeout e), (isinstance_ConnectionError e).
Qed.

Lemma except_response_status e :
  snd (except_response e) = 504 \/ snd (except_response e) = 503
  \/ snd (except_response e) = 500.
Proof.
  unfold except_response.
  destruct (isinstance_Timeout e), (isinstance_ConnectionError e); cbn; auto.
Qed.

Lemma except_response_well_formed e : well_formed (except_response e) = true.
Proof.
  unfold except_response.
  by destruct (isinstance_Timeout e), (isinstance_ConnectionError e).
Qed.

(** Once the body is an object with a [str] under [text], the handler
    validates the trimmed text and hands over to the fallback sequence. *)
Lemma translate_try_text c w d raw :
  request_get_json c = Ret (JObj d) ->
  dict_get d (lit "text") (JStr []) = JStr raw ->
  translate_try c w
  = if negb (truthy (JStr (strip raw)))
    then (Ret (error_response msg_enter_text 400), w)
    else try_providers c (strip raw) w.
Proof.
  intros Hj Ht. rewrite translate_try_blocks.
  cbv [bind lift py_get py_strip ret]. rewrite Hj, Ht.
  by destruct (negb (truthy (JStr (strip raw)))).
Qed.

(** The ways through the validation. *)
Lemma translate_try_cases c w :
  (exists e,
     translate_try c w = (Raise e, w) /\
     (request_get_json c = Raise e \/
      (exists v, request_get_json c = Ret v /\ (forall d, v <> JObj d) /\
                 e = AttributeError v "get") \/
      (exists d v, request_get_json c = Ret (JObj d) /\
                   dict_get d (lit "text") (JStr []) = v /\
                   (forall s, v <> JStr s) /\
                   e = AttributeError v "strip"))) \/
  (exists d raw,
     request_get_json c = Ret (JObj d) /\
     dict_get d (lit "text") (JStr []) = JStr raw /\
     ((strip raw = [] /\
       translate_try c w = (Ret (error_response msg_enter_text 400), w)) \/
      (strip raw <> [] /\
       translate_try c w = try_providers c (strip raw) w))).
Proof.
  destruct (request_get_json c) as [v|e] eqn:Hj.
  - destruct v as [| | | | | |d].
    7: destruct (dict_get d (lit "text") (JStr [])) as [| | | |raw| |] eqn:Ht.
    11: { right. exists d, raw. split; [done|]. split; [done|].
          rewrite (translate_try_text c w d raw Hj Ht).
          destruct (truthy (JStr (strip raw))) eqn:Hs.
          - right. by apply truthy_JStr in Hs.
          - left. by apply truthy_JStr_false in Hs. }
    1-6: left; eexists; split;
      [ rewrite translate_try_blocks; cbv [bind lift py_get py_strip ret raise];
        rewrite Hj; reflexivity
      | right; left; eexists; split; [reflexivity|]; split; [discriminate|reflexivity] ].
    all: left; eexists; split;
      [ rewrite translate_try_blocks; cbv [bind lift py_get py_strip ret raise];
        rewrite Hj, Ht; reflexivity
      | right; right; eexists _, _; split; [reflexivity|]; split; [exact Ht|];
        split; [discriminate|reflexivity] ].
  - left. exists e. split; [|by left].
    rewrite translate_try_blocks. cbv [bind lift]. by rewrite Hj.
Qed.

Lemma rows_saved c text t service w :
  rows (saved c text t service w)
  = rows w ++ match current_user c, db_fault c with
              | Ret (Some uid), None => [new_row c uid text t service w]
              | _, _ => []
              end.
Proof.
  unfold saved.
  destruct (current_user c) as [[uid|]|e]; [destruct (db_fault c)| |];
    cbn [rows logged]; by rewrite ?app_nil_r.
Qed.

Lemma net_saved c text t service w : net (saved c text t service w) = net w.
Proof.
  unfold saved.
  by destruct (current_user c) as [[uid|]|e]; [destruct (db_fault c)| |].
Qed.

(** What the fallback sequence answers, and what it leaves behind. *)
Lemma try_providers_cases c text w :
  exists o w',
    try_providers c text w = (o, w') /\
    ((exists t service wS u,
        o = Ret (success_response t text service) /\
        t <> [] /\
        (service = lit "MyMemory" \/ service = lit "LibreTranslate") /\
        w' = saved c text t service wS /\
        rows wS = rows w /\
        current_user c = Ret u) \/
     (o = Ret (error_response msg_unavailable 503) /\ rows w' = rows w) \/
     (exists e, o = Raise e /\ current_user c = Raise e /\ rows w' = rows w)).
Proof.
  destruct (try_providers_run c text w) as (rA & lA & rB & lB & _ & _ & ->).
  unfold after_success.
  destruct (if_truthy rA) as [t|] eqn:HA.
  - apply if_truthy_Some in HA as [_ Hne].
    destruct (current_user c) as [u|e] eqn:Hu.
    + eexists _, _. split; [reflexivity|]. left.
      eexists _, _, _, u. repeat split; eauto.
    + eexists _, _. split; [reflexivity|]. right. right. by exists e.
  - destruct (if_truthy rB) as [t|] eqn:HB.
    + apply if_truthy_Some in HB as [_ Hne].
      destruct (current_user c) as [u|e] eqn:Hu.
      * eexists _, _. split; [reflexivity|]. left.
        eexists _, _, _, u. repeat split; eauto.
      * eexists _, _. split; [reflexivity|]. right. right. by exists e.
    + eexists _, _. split; [reflexivity|]. right. by left.
Qed.

Lemma translate_try_well_formed c w resp w1 :
  translate_try c w = (Ret resp, w1) -> well_formed resp = true.
Proof.
  intros H.
  destruct (translate_try_cases c w)
    as [(e & He & _)|(d & raw & _ & _ & [[_ He]|[_ He]])];
    rewrite He in H.
  - discriminate.
  - by injection H as <- _.
  - destruct (try_providers_cases c (strip raw) w)
      as (o & w' & Hrun & [(t & svc & wS & u & -> & _)|[[-> _]|(e & -> & _)]]);
      rewrite Hrun in H; [by injection H as <- _..|discriminate H].
Qed.

(** C2: a body that is an object whose [text] is missing, empty or only
    whitespace is answered with 400 and the "please enter text" error,
    whoever the caller is, and the world is left as it was: no provider
    is called, nothing is logged, nothing is stored. *)
Theorem empty_text_is_rejected c w d raw :
  request_get_json c = Ret (JObj d) ->
  dict_get d (lit "text") (JStr []) = JStr raw ->
  strip raw = [] ->
  translate c w = (Ret (error_response msg_enter_text 400), w).
Proof.
  intros Hj Ht Hs.
  rewrite translate_of_try, (translate_try_text c w d raw Hj Ht), Hs.
  reflexivity.
Qed.

Lemma empty_text_is_rejected_spaces :
  translate (scenario (request_body (lit "  ")) (Some (lit "u1"))
                      (Ret (mymemory_ok namaskar)) (Raise ReadTimeout) None) w0
  = (Ret (error_response msg_enter_text 400), w0).
Proof.
  apply (empty_text_is_rejected _ w0 [(lit "text", JStr (lit "  "))] (lit "  "));
    vm_compute; reflexivity.
Defined.

(** C9: a body that parses to [null] or to any value that is not an
    object is answered with 500 and the generic message, after the
    [AttributeError] has been logged; no provider is called.  A 400 is
    only ever the answer to a body that parsed to an object. *)
Theorem non_object_body_is_500 c w :
  (forall v,
     request_get_json c = Ret v ->
     (forall d, v <> JObj d) ->
     translate c w
     = (Ret (error_response msg_unexpected 500),
        logged ERROR (lit "Translation error: " ++ exn_str (AttributeError v "get")) w)) /\
  (forall body w',
     translate c w = (Ret (body, 400), w') ->
     exists d, request_get_json c = Ret (JObj d)).
Proof.
  split.
  - intros v Hj Hv. handler. rewrite Hj.
    destruct v; try reflexivity. by destruct (Hv d).
  - intros body w' H. rewrite translate_of_try in H.
    destruct (translate_try_cases c w)
      as [(e & He & _)|(d & raw & Hj & _)]; [|eauto].
    rewrite He in H. injection H as H _.
    destruct (except_response_status e) as [Hs|[Hs|Hs]];
      rewrite H in Hs; discriminate Hs.
Qed.

Lemma non_object_body_is_500_null :
  fst (translate (scenario (Ret JNull) None
                           (Ret (mymemory_ok namaskar)) (Raise ReadTimeout) None) w0)
  = Ret (error_response msg_unexpected 500).
Proof.
  destruct (non_object_body_is_500
              (scenario (Ret JNull) None
                        (Ret (mymemory_ok namaskar)) (Raise ReadTimeout) None) w0)
    as [H _].
  rewrite (H JNull); [reflexivity | reflexivity | discriminate].
Defined.

(** C10: a 200 answer carries a non-empty translated text, the trimmed
    [text] of the request as original text, and one of the two service
    names. *)
Theorem success_body c w body w' :
  translate c w = (Ret (body, 200), w') ->
  exists d raw s service,
    request_get_json c = Ret (JObj d) /\
    dict_get d (lit "text") (JStr []) = JStr raw /\
    body = JObj [(lit "success", JBool true);
                 (lit "translated_text", JStr s);
                 (lit "original_text", JStr (strip raw));
                 (lit "service", JStr service)] /\
    s <> [] /\
    (service = lit "MyMemory" \/ service = lit "LibreTranslate").
Proof.
  intros H. rewrite translate_of_try in H.
  destruct (translate_try_cases c w)
    as [(e & He & _)|(d & raw & Hj & Ht & [[_ He]|[_ He]])];
    rewrite He in H.
  - injection H as H _.
    destruct (except_response_status e) as [Hs|[Hs|Hs]];
      rewrite H in Hs; discriminate Hs.
  - discriminate H.
  - destruct (try_providers_cases c (strip raw) w)
      as (o & w1 & Hrun
          & [(t & svc & wS & u & -> & Hne & Hsvc & _)|[[-> _]|(e & -> & _)]]);
      rewrite Hrun in H.
    + injection H as <- _. by exists d, raw, t, svc.
    + discriminate H.
    + injection H as H _.
      destruct (except_response_status e) as [Hs|[Hs|Hs]];
        rewrite H in Hs; discriminate Hs.
Qed.

Lemma success_body_hello :
  exists d raw s service,
    Ret (JObj [(lit "text", JStr (lit " Hello "))]) = Ret (JObj d) /\
    dict_get d (lit "text") (JStr []) = JStr raw /\
    JObj [(lit "success", JBool true); (lit "translated_text", JStr namaskar);
          (lit "original_text", JStr (lit "Hello")); (lit "service", JStr (lit "MyMemory"))]
    = JObj [(lit "success", JBool true);
            (lit "translated_text", JStr s);
            (lit "original_text", JStr (strip raw));
            (lit "service", JStr service)] /\
    s <> [] /\
    (service = lit "MyMemory" \/ service = lit "LibreTranslate").
Proof.
  apply (success_body
           (scenario (request_body (lit " Hello ")) None
                     (Ret (mymemory_ok namaskar)) (Raise ReadTimeout) None)
           w0 _
           (called (mymemory_request (lit "Hello"))
                   (logged INFO msg_attempt_mymemory w0))).
  vm_compute. reflexivity.
Defined.

(** C8: whatever the request, the providers, the storage and the user
    lookup do, the handler returns a well-formed JSON answer and never
    raises.  An exception that leaves its [try] block (from
    [request.get_json()], from [get] or [strip] on the body, or from the
    user lookup after a provider has answered) becomes 504 when it is a
    [Timeout], else 503 when it is a [ConnectionError], else 500 with the
    generic message. *)
Theorem translate_never_raises c w :
  exists resp w',
    translate c w = (Ret resp, w') /\
    well_formed resp = true /\
    forall e w1,
      translate_try c w = (Raise e, w1) ->
      resp = if isinstance_Timeout e then error_response msg_timed_out 504
             else if isinstance_ConnectionError e
                  then error_response msg_unable_to_connect 503
                  else error_response msg_unexpected 500.
Proof.
  rewrite translate_of_try.
  destruct (translate_try c w) as [[resp|e] w1] eqn:Htry.
  - exists resp, w1. split; [done|]. split; [|done].
    by eapply translate_try_well_formed.
  - eexists _, _. split; [reflexivity|]. split.
    + apply except_response_well_formed.
    + by intros e' w1' [= <- <-].
Qed.

Lemma translate_never_raises_timeout :
  fst (translate (scenario (Raise ConnectTimeout) None
                           (Raise ReadTimeout) (Raise ReadTimeout) None) w0)
  = Ret (error_response msg_timed_out 504) /\
  fst (translate lookup_times_out w0) = Ret (error_response msg_timed_out 504) /\
  fst (translate lookup_down w0) = Ret (error_response msg_unexpected 500).
Proof.
  split; [|split].
  - destruct (translate_never_raises
                (scenario (Raise ConnectTimeout) None
                          (Raise ReadTimeout) (Raise ReadTimeout) None) w0)
      as (resp & w' & Hrun & _ & Hmap).
    rewrite Hrun. cbn [fst]. f_equal.
    apply (Hmap ConnectTimeout w0). reflexivity.
  - destruct (translate_never_raises lookup_times_out w0)
      as (resp & w' & Hrun & _ & Hmap).
    rewrite Hrun. cbn [fst]. f_equal.
    apply (Hmap ConnectTimeout (snd (translate_try lookup_times_out w0))).
    vm_compute. reflexivity.
  - destruct (translate_never_raises lookup_down w0)
      as (resp & w' & Hrun & _ & Hmap).
    rewrite Hrun. cbn [fst]. f_equal.
    apply (Hmap OperationalError (snd (translate_try lookup_down w0))).
    vm_compute. reflexivity.
Defined.

(** C1 (as amended): for a non-empty text the handler asks MyMemory
    first and each provider at most once.  If MyMemory's client returns a
    non-empty text the only call made is the one to MyMemory, and the
    answer is 200 with service "MyMemory" unless the user lookup raises,
    in which case it is the answer of the [except] clauses.  If MyMemory's
    client returns [None] or the empty text, LibreTranslate is asked
    next, once: a non-empty text gives 200 with service "LibreTranslate"
    (again unless the user lookup raises), anything else gives 503 with
    [success] false. *)
Theorem fallback_order c w d raw :
  request_get_json c = Ret (JObj d) ->
  dict_get d (lit "text") (JStr []) = JStr raw ->
  strip raw <> [] ->
  let text := strip raw in
  let rqA := mymemory_request text in
  let rqB := libretranslate_request (environ_LIBRETRANSLATE_API_KEY c) text in
  let answer s service :=
    match current_user c with
    | Ret _ => success_response s text service
    | Raise e => except_response e
    end in
  url rqA <> LIBRETRANSLATE_API_URL /\
  forall rA wA,
    translate_with_mymemory c text (logged INFO msg_attempt_mymemory w) = (Ret rA, wA) ->
    (forall s, rA = Some s -> s <> [] ->
       exists w',
         translate c w = (Ret (answer s (lit "MyMemory")), w') /\
         net w' = net w ++ [rqA]) /\
    (rA = None \/ rA = Some [] ->
     forall rB wB,
       translate_with_libretranslate c text (logged INFO msg_attempt_libretranslate wA)
       = (Ret rB, wB) ->
       (forall s, rB = Some s -> s <> [] ->
          exists w',
            translate c w = (Ret (answer s (lit "LibreTranslate")), w') /\
            net w' = net w ++ [rqA; rqB]) /\
       (rB = None \/ rB = Some [] ->
          exists w',
            translate c w = (Ret (error_response msg_unavailable 503), w') /\
            net w' = net w ++ [rqA; rqB])).
Proof.
  intros Hj Ht Hs text rqA rqB answer. subst text rqA rqB answer. cbv beta.
  split; [by vm_compute|].
  intros rA wA HA.
  assert (truthy (JStr (strip raw)) = true) as Htext by (by apply truthy_JStr).
  rewrite translate_of_try, (translate_try_text c w d raw Hj Ht), Htext.
  cbn [negb].
  destruct (try_providers_run c (strip raw) w)
    as (rA' & lA & rB' & lB & HA' & HB' & ->).
  rewrite HA' in HA. injection HA as <- <-.
  split.
  - intros s -> Hne.
    assert (if_truthy (Some s) = Some s) as -> by (by apply if_truthy_Some).
    unfold after_success. destruct (current_user c) as [u|e].
    + eexists. split; [reflexivity|]. by rewrite net_saved.
    + eexists. split; [reflexivity|]. by destruct (_ || _).
  - intros HrA rB wB HB.
    apply if_truthy_None in HrA. rewrite HrA.
    rewrite HB' in HB. injection HB as <- <-.
    split.
    + intros s -> Hne.
      assert (if_truthy (Some s) = Some s) as -> by (by apply if_truthy_Some).
      unfold after_success. destruct (current_user c) as [u|e].
      * eexists. split; [reflexivity|].
        rewrite net_saved. cbn [net]. by rewrite <- app_assoc.
      * eexists. split; [reflexivity|].
        destruct (_ || _); cbn [net logged]; by rewrite <- app_assoc.
    + intros HrB. apply if_truthy_None in HrB. rewrite HrB.
      eexists. split; [reflexivity|]. cbn [net]. by rewrite <- app_assoc.
Qed.

Lemma fallback_order_hello :
  exists w',
    translate (scenario (request_body (lit "Hello")) None
                        (Ret (mymemory_ok namaskar)) (Raise ReadTimeout) None) w0
    = (Ret (success_response namaskar (lit "Hello") (lit "MyMemory")), w') /\
    net w' = [mymemory_request (lit "Hello")].
Proof.
  destruct (fallback_order
              (scenario (request_body (lit "Hello")) None
                        (Ret (mymemory_ok namaskar)) (Raise ReadTimeout) None)
              w0 [(lit "text", JStr (lit "Hello"))] (lit "Hello")
              eq_refl ltac:(vm_compute; reflexivity) ltac:(vm_compute; discriminate))
    as [_ H].
  destruct (H (Some namaskar)
              (called (mymemory_request (lit "Hello"))
                      (logged INFO msg_attempt_mymemory w0))
              ltac:(vm_compute; reflexivity))
    as [H1 _].
  apply (H1 namaskar eq_refl). discriminate.
Defined.

(** C1 as stated fails: a client result that is not [None] is not enough
    for a 200.  When MyMemory's translated text holds only whitespace its
    client returns the empty string, and the handler goes on to
    LibreTranslate. *)
Lemma non_null_is_not_enough :
  ~ (forall c w d raw s wA,
       request_get_json c = Ret (JObj d) ->
       dict_get d (lit "text") (JStr []) = JStr raw ->
       strip raw <> [] ->
       translate_with_mymemory c (strip raw) (logged INFO msg_attempt_mymemory w)
       = (Ret (Some s), wA) ->
       exists w',
         translate c w = (Ret (success_response s (strip raw) (lit "MyMemory")), w') /\
         net w' = net w ++ [mymemory_request (strip raw)]).
Proof.
  intros H.
  destruct (H blank_mymemory w0 [(lit "text", JStr (lit "Hello"))] (lit "Hello") []
              (called (mymemory_request (lit "Hello"))
                      (logged INFO msg_attempt_mymemory w0))
              eq_refl ltac:(vm_compute; reflexivity) ltac:(vm_compute; discriminate)
              ltac:(vm_compute; reflexivity))
    as (w' & Hrun & _).
  vm_compute in Hrun. discriminate Hrun.
Qed.

(** Nor is a non-empty text enough: the user lookup comes after the
    provider call and outside the inner [try].  When it raises, the
    answer is that of the [except] clauses, after the call was made. *)
Lemma lookup_failure_is_not_200 :
  ~ (forall c w d raw s wA,
       request_get_json c = Ret (JObj d) ->
       dict_get d (lit "text") (JStr []) = JStr raw ->
       strip raw <> [] ->
       translate_with_mymemory c (strip raw) (logged INFO msg_attempt_mymemory w)
       = (Ret (Some s), wA) ->
       s <> [] ->
       exists w',
         translate c w = (Ret (success_response s (strip raw) (lit "MyMemory")), w')).
Proof.
  intros H.
  destruct (H lookup_down w0 [(lit "text", JStr (lit "Hello"))] (lit "Hello") namaskar
              (called (mymemory_request (lit "Hello"))
                      (logged INFO msg_attempt_mymemory w0))
              eq_refl ltac:(vm_compute; reflexivity) ltac:(vm_compute; discriminate)
              ltac:(vm_compute; reflexivity) ltac:(discriminate))
    as (w' & Hrun).
  vm_compute in Hrun. discriminate Hrun.
Qed.

Example lookup_down_trace :
  translate lookup_down w0
  = (Ret (error_response msg_unexpected 500),
     logged ERROR (lit "Translation error: " ++ lit "database is locked")
       (called (mymemory_request (lit "Hello"))
          (logged INFO msg_attempt_mymemory w0))).
Proof. vm_compute. reflexivity. Qed.

Example blank_mymemory_trace :
  translate blank_mymemory w0
  = (Ret (error_response msg_unavailable 503),
     logged ERROR (lit "LibreTranslate API error: " ++ lit "Read timed out.")
       (called (libretranslate_request None (lit "Hello"))
          (logged INFO msg_attempt_libretranslate
             (called (mymemory_request (lit "Hello"))
                (logged INFO msg_attempt_mymemory w0))))).
Proof. vm_compute. reflexivity. Qed.

Lemma mymemory_set_db_fault c f :
  translate_with_mymemory (set_db_fault c f) = translate_with_mymemory c.
Proof. reflexivity. Qed.

Lemma libretranslate_set_db_fault c f :
  translate_with_libretranslate (set_db_fault c f) = translate_with_libretranslate c.
Proof. reflexivity. Qed.

(** When the user lookup returns, the fallback sequence answers the same
    whatever the storage does; the storage only decides what the history
    block leaves behind. *)
Lemma try_providers_any_storage c text w u :
  current_user c = Ret u ->
  exists resp wS (sv : option (pystr * pystr)),
    (snd resp = 200 -> is_Some sv) /\
    rows wS = rows w /\
    forall f,
      try_providers (set_db_fault c f) text w
      = (Ret resp,
         match sv with
         | Some (t, service) => saved (set_db_fault c f) text t service wS
         | None => wS
         end).
Proof.
  intros Hu.
  destruct (try_providers_run c text w) as (rA & lA & rB & lB & HA & HB & _).
  pose (wA := {| logs := (logs w ++ [(INFO, msg_attempt_mymemory)]) ++ lA;
                 net := net w ++ [mymemory_request text];
                 rows := rows w |}).
  pose (wB := {| logs := (logs wA ++ [(INFO, msg_attempt_libretranslate)]) ++ lB;
                 net := net wA ++ [libretranslate_request
                                     (environ_LIBRETRANSLATE_API_KEY c) text];
                 rows := rows w |}).
  exists (match if_truthy rA with
          | Some t => success_response t text (lit "MyMemory")
          | None => match if_truthy rB with
                    | Some t => success_response t text (lit "LibreTranslate")
                    | None => error_response msg_unavailable 503
                    end
          end),
    (match if_truthy rA with Some _ => wA | None => wB end),
    (match if_truthy rA with
     | Some t => Some (t, lit "MyMemory")
     | None => match if_truthy rB with
               | Some t => Some (t, lit "LibreTranslate")
               | None => None
               end
     end).
  split; [|split].
  - destruct (if_truthy rA); [eauto|]. destruct (if_truthy rB); [eauto|].
    discriminate.
  - by destruct (if_truthy rA).
  - intros f.
    destruct (try_providers_run (set_db_fault c f) text w)
      as (rA' & lA' & rB' & lB' & HA' & HB' & ->).
    rewrite mymemory_set_db_fault, HA in HA'.
    injection HA' as HrA HlA. apply app_inv_head in HlA. subst rA' lA'.
    rewrite libretranslate_set_db_fault in HB'.
    cbn [set_db_fault environ_LIBRETRANSLATE_API_KEY] in HB'.
    rewrite HB in HB'.
    injection HB' as HrB HlB. apply app_inv_head in HlB. subst rB' lB'.
    unfold after_success. cbn [set_db_fault current_user]. rewrite Hu.
    destruct (if_truthy rA); [reflexivity|]. destruct (if_truthy rB); reflexivity.
Qed.

(** C5: when a request of an authenticated caller is answered with 200
    while the storage works, it is answered with the very same 200 when
    the storage raises instead; the exception is logged and no row is
    written. *)
Theorem history_failure_is_silent c w uid e resp w' :
  current_user c = Ret (Some uid) ->
  translate (set_db_fault c None) w = (Ret resp, w') ->
  snd resp = 200 ->
  exists w'',
    translate (set_db_fault c (Some e)) w = (Ret resp, w'') /\
    (ERROR, lit "Failed to save translation history: " ++ exn_str e) ∈ logs w'' /\
    rows w'' = rows w.
Proof.
  intros Hu H Hs. rewrite translate_of_try in H |- *.
  destruct (translate_try_cases (set_db_fault c None) w)
    as [(e0 & He & _)|(d & raw & Hj & Ht & [[_ He]|[Hne He]])];
    rewrite He in H.
  - injection H as <- _.
    destruct (except_response_status e0) as [Hx|[Hx|Hx]];
      rewrite Hx in Hs; discriminate Hs.
  - injection H as <- _. discriminate Hs.
  - assert (truthy (JStr (strip raw)) = true) as Htext by (by apply truthy_JStr).
    rewrite (translate_try_text (set_db_fault c (Some e)) w d raw Hj Ht), Htext.
    cbn [negb].
    destruct (try_providers_any_storage c (strip raw) w (Some uid) Hu)
      as (resp' & wS & sv & Hsv & Hrows & Hrun).
    rewrite Hrun in H. injection H as <- _. rewrite Hrun.
    destruct (Hsv Hs) as [[t svc] ->].
    eexists. split; [reflexivity|].
    unfold saved. cbn [set_db_fault current_user db_fault]. rewrite Hu.
    cbn [logged logs rows]. split; [|done].
    apply elem_of_app. right. by apply list_elem_of_singleton.
Qed.

Lemma history_failure_is_silent_hello :
  exists w'',
    translate (set_db_fault storage_up (Some OperationalError)) w0
    = (Ret (success_response namaskar (lit "Hello") (lit "MyMemory")), w'') /\
    (ERROR, lit "Failed to save translation history: " ++ exn_str OperationalError)
      ∈ logs w'' /\
    rows w'' = rows w0.
Proof.
  apply (history_failure_is_silent storage_up w0 (lit "u1") OperationalError _
           (snd (translate storage_up w0)));
    [reflexivity | vm_compute; reflexivity | reflexivity].
Defined.

(** C6 (as amended): a request adds at most one row to the table, and it
    adds one only when it is answered with a success body, the caller is
    authenticated and the storage does not raise; the row then carries
    the caller's id and the original text, translated text and service of
    the body.  Under those three conditions exactly one row is added; a
    request that is not answered with 200, a caller who is not
    authenticated (anonymous, or whose lookup raised), or a storage that
    raises leaves the table as it was. *)
Theorem history_rows c w :
  exists resp w' new,
    translate c w = (Ret resp, w') /\
    rows w' = rows w ++ new /\
    (new = [] \/
     exists uid t text service,
       current_user c = Ret (Some uid) /\
       db_fault c = None /\
       resp = success_response t text service /\
       new = [{| models.id := next_id (rows w);
                 models.user_id := Some uid;
                 models.original_text := text;
                 models.translated_text := t;
                 models.service_used := service;
                 models.created_at := now c |}]) /\
    (snd resp = 200 -> (exists uid, current_user c = Ret (Some uid)) ->
     db_fault c = None -> length new = 1%nat) /\
    (snd resp <> 200 -> new = []) /\
    ((forall uid, current_user c <> Ret (Some uid)) -> new = []) /\
    (is_Some (db_fault c) -> new = []).
Proof.
  rewrite translate_of_try.
  destruct (translate_try_cases c w)
    as [(e & -> & _)|(d & raw & _ & _ & [[_ ->]|[_ ->]])].
  - eexists (except_response e), _, []. split; [reflexivity|].
    split; [by destruct (_ || _); rewrite app_nil_r|].
    split; [by left|]. split; [|done].
    intros Hs. destruct (except_response_status e) as [Hx|[Hx|Hx]];
      rewrite Hx in Hs; discriminate Hs.
  - eexists _, _, []. split; [reflexivity|]. split; [by rewrite app_nil_r|].
    split; [by left|]. split; [|done]. discriminate.
  - destruct (try_providers_cases c (strip raw) w)
      as (o & w' & ->
          & [(t & svc & wS & u & -> & _ & _ & -> & Hrows & Hu)
            |[[-> Hrows]|(e & -> & Hu & Hrows)]]).
    + eexists _, _, _. split; [reflexivity|].
      split; [rewrite rows_saved, Hrows; reflexivity|].
      unfold new_row. rewrite Hrows, Hu.
      destruct u as [uid|]; [destruct (db_fault c) as [e|]|].
      * split; [by left|]. split; [discriminate|]. done.
      * split; [right; by exists uid, t, (strip raw), svc|].
        split; [done|]. split; [|split]; [done| |by intros [? ?]].
        intros H. by destruct (H uid).
      * split; [by left|]. split; [|done]. by intros _ [? [=]].
    + exists (error_response msg_unavailable 503), w', [].
      split; [reflexivity|]. split; [by rewrite app_nil_r|].
      split; [by left|]. split; [|done]. discriminate.
    + eexists (except_response e), _, []. split; [reflexivity|].
      split; [by destruct (_ || _); cbn [rows logged]; rewrite app_nil_r|].
      split; [by left|]. split; [|done].
      intros Hs. destruct (except_response_status e) as [Hx|[Hx|Hx]];
        rewrite Hx in Hs; discriminate Hs.
Qed.

Lemma history_rows_hello :
  length (rows (snd (translate storage_up w0))) = 1%nat.
Proof.
  destruct (history_rows storage_up w0)
    as (resp & w' & new & Hrun & Hrows & _ & Hone & _).
  rewrite Hrun. cbn [snd]. rewrite Hrows. cbn [rows w0 app].
  apply Hone; [|by eexists|reflexivity].
  apply (f_equal fst) in Hrun. vm_compute in Hrun. by injection Hrun as <-.
Defined.

(** C6 as stated fails: a successful translation for an authenticated
    caller does not always create a row.  When the storage raises, the
    answer is still 200 and the table is unchanged. *)
Lemma success_without_row :
  ~ (forall c w resp w' uid,
       translate c w = (Ret resp, w') ->
       snd resp = 200 ->
       current_user c = Ret (Some uid) ->
       length (rows w') = S (length (rows w))).
Proof.
  intros H.
  specialize (H storage_down w0
                (success_response namaskar (lit "Hello") (lit "MyMemory"))
                (snd (translate storage_down w0)) (lit "u1")
                ltac:(vm_compute; reflexivity) eq_refl eq_refl).
  vm_compute in H. discriminate H.
Qed.

(** ** The history page *)

#[global] Instance newest_first_total : Total newest_first.
Proof. intros a b. unfold newest_first. lia. Qed.

#[global] Instance newest_first_trans : Transitive newest_first.
Proof. intros a b c. unfold newest_first. lia. Qed.

Lemma HdRel_take {A} (R : relation A) x n l :
  HdRel R x l -> HdRel R x (take n l).
Proof. destruct 1, n; by constructor. Qed.

Lemma Sorted_take {A} (R : relation A) n l :
  Sorted R l -> Sorted R (take n l).
Proof.
  intros Hl. revert n.
  induction Hl as [|x l Hl IH Hx]; intros [|n]; cbn; try constructor.
  - apply IH.
  - by apply HdRel_take.
Qed.

Lemma query_history_length uid rs : (length (query_history uid rs) <= 50)%nat.
Proof. unfold query_history. rewrite length_take. lia. Qed.

Lemma query_history_elem uid rs t :
  t ∈ query_history uid rs -> models.user_id t = Some uid /\ t ∈ rs.
Proof.
  unfold query_history. intros Ht.
  apply (subseteq_take 50) in Ht.
  rewrite merge_sort_Permutation in Ht.
  by apply list_elem_of_filter in Ht.
Qed.

Lemma query_history_sorted uid rs : Sorted newest_first (query_history uid rs).
Proof. unfold query_history. apply Sorted_take, Sorted_merge_sort, _. Qed.

(** A row of the caller that is left out is no newer than any row shown. *)
Lemma query_history_newest uid rs t t' :
  t ∈ rs -> models.user_id t = Some uid ->
  t ∉ query_history uid rs -> t' ∈ query_history uid rs ->
  newest_first t' t.
Proof.
  unfold query_history.
  set (l := merge_sort newest_first (filter _ rs)).
  intros Ht Hu Hout Hin.
  assert (t ∈ l) as Hl.
  { unfold l. rewrite merge_sort_Permutation. by apply list_elem_of_filter. }
  rewrite <- (take_drop 50 l) in Hl.
  apply elem_of_app in Hl as [Hl|Hl]; [done|].
  eapply (StronglySorted_app_1_elem_of newest_first (take 50 l) (drop 50 l)); eauto.
  rewrite take_drop. apply StronglySorted_merge_sort; apply _.
Qed.

(** The page is the front of the caller's rows in the order of the
    query; what is cut off comes after it. *)
Lemma query_history_split uid rs :
  exists rest,
    query_history uid rs ++ rest ≡ₚ owned uid rs /\
    length (query_history uid rs) = (50 `min` length (owned uid rs))%nat /\
    forall t t', t ∈ rest -> t' ∈ query_history uid rs -> newest_first t' t.
Proof.
  unfold query_history, owned.
  set (f := filter _ rs). set (l := merge_sort newest_first f).
  exists (drop 50 l). split; [|split].
  - rewrite take_drop. apply merge_sort_Permutation.
  - rewrite length_take. unfold l.
    by rewrite (Permutation_length (merge_sort_Permutation _ f)).
  - intros t t' Ht Ht'.
    eapply (StronglySorted_app_1_elem_of newest_first (take 50 l) (drop 50 l)); eauto.
    rewrite take_drop. apply StronglySorted_merge_sort; apply _.
Qed.

(** C7: a caller who is not authenticated is redirected to the login
    endpoint.  An authenticated caller gets the history page, which
    lists rows of the table owned by the caller: all of them when there
    are at most 50 and exactly 50 of them otherwise, in order of creation
    time, newest first, and no row of the caller that is left out is
    newer than a row shown. *)
Theorem history_page c w :
  (current_user c = Ret None ->
   history c w = Ret (redirect (lit "replit_auth.login"))) /\
  (forall uid,
     current_user c = Ret (Some uid) ->
     exists ts rest,
       history c w = Ret (render_template (lit "history.html") ts) /\
       ts ++ rest ≡ₚ owned uid (rows w) /\
       length ts = (50 `min` length (owned uid (rows w)))%nat /\
       (length ts <= 50)%nat /\
       Forall (fun t => models.user_id t = Some uid /\ t ∈ rows w) ts /\
       Sorted newest_first ts /\
       (forall t t', t ∈ rest -> t' ∈ ts -> newest_first t' t) /\
       forall t t', t ∈ rows w -> models.user_id t = Some uid -> t ∉ ts ->
                    t' ∈ ts -> newest_first t' t).
Proof.
  unfold history. split.
  - by intros ->.
  - intros uid ->.
    destruct (query_history_split uid (rows w)) as (rest & Hp & Hlen & Hrest).
    exists (query_history uid (rows w)), rest.
    split; [done|]. split; [exact Hp|]. split; [exact Hlen|].
    split; [apply query_history_length|].
    split; [|split; [|split]].
    + apply Forall_forall. intros t. apply query_history_elem.
    + apply query_history_sorted.
    + exact Hrest.
    + intros t t'. apply query_history_newest.
Qed.

Lemma history_page_u1 :
  exists ts rest,
    history (scenario (request_body []) (Some (lit "u1"))
                      (Raise ReadTimeout) (Raise ReadTimeout) None) some_rows
    = Ret (render_template (lit "history.html") ts) /\
    ts ++ rest ≡ₚ owned (lit "u1") (rows some_rows) /\
    length ts = (50 `min` length (owned (lit "u1") (rows some_rows)))%nat /\
    (length ts <= 50)%nat /\
    Forall (fun t => models.user_id t = Some (lit "u1") /\ t ∈ rows some_rows) ts /\
    Sorted newest_first ts /\
    (forall t t', t ∈ rest -> t' ∈ ts -> newest_first t' t) /\
    forall t t', t ∈ rows some_rows -> models.user_id t = Some (lit "u1") ->
                 t ∉ ts -> t' ∈ ts -> newest_first t' t.
Proof.
  apply (proj2 (history_page
                  (scenario (request_body []) (Some (lit "u1"))
                            (Raise ReadTimeout) (Raise ReadTimeout) None)
                  some_rows) (lit "u1")).
  reflexivity.
Defined.

Example history_u1 :
  history (scenario (request_body []) (Some (lit "u1"))
                    (Raise ReadTimeout) (Raise ReadTimeout) None) some_rows
  = Ret (render_template (lit "history.html")
           [row 3 (Some (lit "u1")) 30; row 5 (Some (lit "u1")) 20;
            row 1 (Some (lit "u1")) 10]).
Proof. vm_compute. reflexivity. Qed.

Example history_anonymous :
  history (scenario (request_body []) None
                    (Raise ReadTimeout) (Raise ReadTimeout) None) some_rows
  = Ret (redirect (lit "replit_auth.login")).
Proof. reflexivity. Qed.

(** A user lookup that raises leaves the view with its exception. *)
Example history_lookup_fails :
  history lookup_down some_rows = Raise OperationalError.
Proof. reflexivity. Qed.

(** ** More runs of the handler *)

(** A body that is not JSON: [request.get_json()] raises, the last
    [except] clause answers. *)
Example malformed_body :
  translate (scenario (Raise BadRequest) None
                      (Ret (mymemory_ok namaskar)) (Raise ReadTimeout) None) w0
  = (Ret (error_response msg_unexpected 500),
     logged ERROR (lit "Translation error: " ++ lit "400 Bad Request") w0).
Proof. vm_compute. reflexivity. Qed.

(** An exception that is a [ConnectionError] and not a [Timeout]. *)
Example connection_error_response :
  except_response ConnectionError = error_response msg_unable_to_connect 503.
Proof. reflexivity. Qed.

(** [{"text": null}]: the [text] is there but has no [strip]. *)
Example null_text :
  fst (translate (scenario (Ret (JObj [(lit "text", JNull)])) None
                           (Ret (mymemory_ok namaskar)) (Raise ReadTimeout) None) w0)
  = Ret (error_response msg_unexpected 500).
Proof. vm_compute. reflexivity. Qed.

(** MyMemory fails, LibreTranslate answers, the caller is logged in. *)
Example fallback_with_history :
  let c := scenario (request_body (lit " Hello ")) (Some (lit "u1"))
                    (Ret {| status_code := 429; response_json := Raise BadRequest |})
                    (Ret (libretranslate_ok namaskar)) None in
  fst (translate c w0)
  = Ret (success_response namaskar (lit "Hello") (lit "LibreTranslate")) /\
  rows (snd (translate c w0))
  = [{| models.id := 1; models.user_id := Some (lit "u1");
        models.original_text := lit "Hello"; models.translated_text := namaskar;
        models.service_used := lit "LibreTranslate";
        models.created_at := 1700000000 |}] /\
  net (snd (translate c w0))
  = [mymemory_request (lit "Hello"); libretranslate_request None (lit "Hello")].
Proof. vm_compute. repeat split. Qed.

(** ** Trimming *)

Lemma lstrip_blank s : lstrip s = [] <-> blank s.
Proof.
  unfold blank. induction s as [|ch s IH]; cbn.
  - split; [constructor|done].
  - destruct (isspace ch) eqn:Hch.
    + rewrite IH. split; [by constructor|by inversion 1].
    + split; [done|]. inversion 1; congruence.
Qed.

Lemma lstrip_head s ch : head (lstrip s) = Some ch -> isspace ch = false.
Proof.
  induction s as [|x s IH]; cbn; [done|].
  destruct (isspace x) eqn:Hx; [done|]. cbn. congruence.
Qed.

Lemma lstrip_suffix s : exists p, s = p ++ lstrip s.
Proof.
  induction s as [|x s [p IH]]; cbn; [by exists []|].
  destruct (isspace x); [|by exists []].
  exists (x :: p). cbn. by rewrite <- IH.
Qed.

Lemma lstrip_id s :
  (forall ch, head s = Some ch -> isspace ch = false) -> lstrip s = s.
Proof.
  destruct s as [|x s]; cbn; [done|]. intros H. by rewrite (H x eq_refl).
Qed.

Lemma head_rev (s : pystr) : head (rev s) = last s.
Proof. rewrite rev_alt. apply head_reverse. Qed.

Lemma last_rev (s : pystr) : last (rev s) = head s.
Proof. rewrite rev_alt. apply last_reverse. Qed.

Lemma strip_trimmed s : trimmed (strip s).
Proof.
  unfold trimmed, strip, rstrip. split; intros ch.
  - rewrite head_rev. intros Hl.
    destruct (lstrip_suffix (rev (lstrip s))) as [p Hp].
    apply (lstrip_head s ch). rewrite <- last_rev, Hp.
    apply last_Some in Hl as [l' Hl]. rewrite Hl, app_assoc.
    apply last_snoc.
  - rewrite last_rev. apply lstrip_head.
Qed.

Lemma strip_of_trimmed s : trimmed s -> strip s = s.
Proof.
  intros [Hh Hl]. unfold strip, rstrip.
  rewrite (lstrip_id s Hh), lstrip_id, rev_involutive; [done|].
  intros ch. rewrite head_rev. apply Hl.
Qed.

Lemma strip_blank s : strip s = [] <-> blank s.
Proof.
  unfold strip, rstrip. split.
  - intros H. apply (f_equal (@rev N)) in H. rewrite rev_involutive in H.
    cbn in H. apply lstrip_blank in H.
    apply lstrip_blank. destruct (lstrip s) as [|x t] eqn:Ht; [done|].
    assert (isspace x = false) as Hx by (apply (lstrip_head s); by rewrite Ht).
    unfold blank in H. rewrite Forall_forall in H.
    rewrite (H x) in Hx; [done|]. apply list_elem_of_In, in_rev.
    rewrite rev_involutive. by left.
  - intros H. apply lstrip_blank in H. by rewrite H.
Qed.

(** ** More on the provider clients *)

(** X1: a status other than 200 makes either client return [None]
    without looking at the body and without logging anything. *)
Theorem client_ignores_body_of_error_status c text w :
  (forall resp,
     network c (mymemory_request text) = Ret resp ->
     status_code resp <> 200 ->
     translate_with_mymemory c text w
     = (Ret None, called (mymemory_request text) w)) /\
  (forall resp,
     network c (libretranslate_request (environ_LIBRETRANSLATE_API_KEY c) text)
       = Ret resp ->
     status_code resp <> 200 ->
     translate_with_libretranslate c text w
     = (Ret None,
        called (libretranslate_request (environ_LIBRETRANSLATE_API_KEY c) text) w)).
Proof.
  split; intros resp Hn Hs; apply Z.eqb_neq in Hs; run; by rewrite Hn, Hs.
Qed.

Lemma client_ignores_body_of_error_status_429 :
  translate_with_mymemory rate_limited (lit "Hello") w0
  = (Ret None, called (mymemory_request (lit "Hello")) w0) /\
  translate_with_libretranslate rate_limited (lit "Hello") w0
  = (Ret None, called (libretranslate_request None (lit "Hello")) w0).
Proof.
  destruct (client_ignores_body_of_error_status rate_limited (lit "Hello") w0)
    as [HA HB].
  split.
  - eapply HA; [vm_compute; reflexivity | vm_compute; discriminate].
  - eapply HB; [vm_compute; reflexivity | vm_compute; discriminate].
Defined.

(** X2: MyMemory's body must say [responseStatus == 200] itself.  When
    that field is missing or compares unequal to 200 (a string "200"
    does), the client returns [None] silently, whatever translation the
    body carries. *)
Theorem mymemory_needs_response_status c text w resp body :
  network c (mymemory_request text) = Ret resp ->
  status_code resp = 200 ->
  response_json resp = Ret (JObj body) ->
  py_eq_int (dict_get body (lit "responseStatus") JNull) 200 = false ->
  translate_with_mymemory c text w
  = (Ret None, called (mymemory_request text) w).
Proof.
  intros Hn Hs Hj Hr. run. by rewrite Hn, Hs, Hj, Hr.
Qed.

Lemma mymemory_needs_response_status_string :
  translate_with_mymemory status_as_string (lit "Hello") w0
  = (Ret None, called (mymemory_request (lit "Hello")) w0).
Proof.
  eapply (mymemory_needs_response_status status_as_string);
    vm_compute; reflexivity.
Defined.

(** X3: MyMemory's client fails closed on a body of the wrong shape.  A
    body that is not an object, a [responseData] that is not an object,
    and a translated text that is truthy but not a string each end in
    [None] with the [AttributeError] logged; a translated text that is
    falsy ([null], "", 0, [false], an empty list or object) ends in
    [None] silently. *)
Theorem mymemory_shape_mismatch c text w resp :
  network c (mymemory_request text) = Ret resp ->
  status_code resp = 200 ->
  let rq := mymemory_request text in
  let failed v attr :=
    (Ret None, logged ERROR (lit "MyMemory API error: " ++ exn_str (AttributeError v attr))
                      (called rq w)) in
  (forall v, response_json resp = Ret v -> (forall d, v <> JObj d) ->
             translate_with_mymemory c text w = failed v "get"%string) /\
  (forall body,
     response_json resp = Ret (JObj body) ->
     py_eq_int (dict_get body (lit "responseStatus") JNull) 200 = true ->
     (forall v, dict_get body (lit "responseData") (JObj []) = v ->
                (forall d, v <> JObj d) ->
                translate_with_mymemory c text w = failed v "get"%string) /\
     (forall d v,
        dict_get body (lit "responseData") (JObj []) = JObj d ->
        dict_get d (lit "translatedText") (JStr []) = v ->
        (truthy v = true -> (forall s, v <> JStr s) ->
         translate_with_mymemory c text w = failed v "strip"%string) /\
        (truthy v = false ->
         translate_with_mymemory c text w = (Ret None, called rq w)))).
Proof.
  intros Hn Hs rq failed. subst rq failed. cbv beta. split; [|intros body Hj Hr; split].
  - intros v Hj Hv. run. rewrite Hn, Hs, Hj.
    destruct v; try reflexivity. by destruct (Hv d).
  - intros v Hd Hv. run. rewrite Hn, Hs, Hj, Hr, Hd.
    destruct v; try reflexivity. by destruct (Hv d).
  - intros d v Hd Ht. split.
    + intros Htr Hv. run. rewrite Hn, Hs, Hj, Hr, Hd, Ht, Htr.
      destruct v; try reflexivity. by destruct (Hv s).
    + intros Htr. run. by rewrite Hn, Hs, Hj, Hr, Hd, Ht, Htr.
Qed.

Lemma mymemory_shape_mismatch_number :
  translate_with_mymemory number_for_text (lit "Hello") w0
  = (Ret None,
     logged ERROR (lit "MyMemory API error: "
                     ++ lit "'int' object has no attribute 'strip'")
            (called (mymemory_request (lit "Hello")) w0)).
Proof.
  destruct (mymemory_shape_mismatch number_for_text (lit "Hello") w0
              {| status_code := 200;
                 response_json :=
                   Ret (JObj [(lit "responseData",
                               JObj [(lit "translatedText", JInt 5)]);
                              (lit "responseStatus", JInt 200)]) |}
              ltac:(vm_compute; reflexivity) eq_refl)
    as [_ H].
  destruct (H _ eq_refl ltac:(vm_compute; reflexivity)) as [_ H'].
  destruct (H' [(lit "translatedText", JInt 5)] (JInt 5)
               ltac:(vm_compute; reflexivity) ltac:(vm_compute; reflexivity))
    as [Hstrip _].
  apply Hstrip; [reflexivity|discriminate].
Defined.

(** X4: LibreTranslate's client fails closed in the same way: a body
    that is not an object or a translated text that is truthy but not a
    string is logged and gives [None]; a falsy translated text gives
    [None] silently. *)
Theorem libretranslate_shape_mismatch c text w resp :
  let rq := libretranslate_request (environ_LIBRETRANSLATE_API_KEY c) text in
  network c rq = Ret resp ->
  status_code resp = 200 ->
  let failed v attr :=
    (Ret None,
     logged ERROR (lit "LibreTranslate API error: " ++ exn_str (AttributeError v attr))
            (called rq w)) in
  (forall v, response_json resp = Ret v -> (forall d, v <> JObj d) ->
             translate_with_libretranslate c text w = failed v "get"%string) /\
  (forall body v,
     response_json resp = Ret (JObj body) ->
     dict_get body (lit "translatedText") (JStr []) = v ->
     (truthy v = true -> (forall s, v <> JStr s) ->
      translate_with_libretranslate c text w = failed v "strip"%string) /\
     (truthy v = false ->
      translate_with_libretranslate c text w = (Ret None, called rq w))).
Proof.
  intros rq Hn Hs failed. subst rq failed. cbv beta. split.
  - intros v Hj Hv. run. rewrite Hn, Hs, Hj.
    destruct v; try reflexivity. by destruct (Hv d).
  - intros body v Hj Ht. split.
    + intros Htr Hv. run. rewrite Hn, Hs, Hj, Ht, Htr.
      destruct v; try reflexivity. by destruct (Hv s).
    + intros Htr. run. by rewrite Hn, Hs, Hj, Ht, Htr.
Qed.

Lemma libretranslate_shape_mismatch_number :
  translate_with_libretranslate number_for_text (lit "Hello") w0
  = (Ret None,
     logged ERROR (lit "LibreTranslate API error: "
                     ++ lit "'int' object has no attribute 'strip'")
            (called (libretranslate_request None (lit "Hello")) w0)).
Proof.
  destruct (libretranslate_shape_mismatch number_for_text (lit "Hello") w0
              {| status_code := 200;
                 response_json := Ret (JObj [(lit "translatedText", JInt 5)]) |}
              ltac:(vm_compute; reflexivity) eq_refl)
    as [_ H].
  destruct (H [(lit "translatedText", JInt 5)] (JInt 5) eq_refl
              ltac:(vm_compute; reflexivity))
    as [Hstrip _].
  apply Hstrip; [reflexivity|discriminate].
Defined.

Lemma mymemory_text c text w s w' :
  translate_with_mymemory c text w = (Ret (Some s), w') ->
  trimmed s /\ w' = called (mymemory_request text) w.
Proof.
  revert s w'. run. repeat case_match; intros; simplify_eq.
  split; [apply strip_trimmed|reflexivity].
Qed.

Lemma libretranslate_text c text w s w' :
  translate_with_libretranslate c text w = (Ret (Some s), w') ->
  trimmed s /\
  w' = called (libretranslate_request (environ_LIBRETRANSLATE_API_KEY c) text) w.
Proof.
  revert s w'. run. repeat case_match; intros; simplify_eq.
  split; [apply strip_trimmed|reflexivity].
Qed.

(** X5: a text returned by a provider client has no whitespace at
    either end, and a client that returns a text has logged nothing: its
    only trace is the one call. *)
Theorem client_text_is_trimmed c text w s w' :
  (translate_with_mymemory c text w = (Ret (Some s), w') ->
   trimmed s /\ w' = called (mymemory_request text) w) /\
  (translate_with_libretranslate c text w = (Ret (Some s), w') ->
   trimmed s /\
   w' = called (libretranslate_request (environ_LIBRETRANSLATE_API_KEY c) text) w).
Proof. split; [apply mymemory_text|apply libretranslate_text]. Qed.

Lemma client_text_is_trimmed_hello :
  trimmed namaskar /\
  called (mymemory_request (lit "Hello")) w0 = called (mymemory_request (lit "Hello")) w0.
Proof.
  apply (proj1 (client_text_is_trimmed
                  (scenario (request_body (lit "Hello")) None
                            (Ret (mymemory_ok (lit " " ++ namaskar ++ lit "  ")))
                            (Raise ReadTimeout) None)
                  (lit "Hello") w0 namaskar _)).
  vm_compute. reflexivity.
Defined.

(** X6: the one call of LibreTranslate's client is a POST to the
    LibreTranslate URL with a 10 second timeout, the text unchanged under
    [q], source "en", target "as", and a JSON content type.  It carries
    an [Authorization] header exactly when the environment holds a
    non-empty API key, and the header is then "Bearer " followed by the
    key; an empty key is treated like no key. *)
Theorem libretranslate_call c text w :
  exists rq,
    net (snd (translate_with_libretranslate c text w)) = net w ++ [rq] /\
    method rq = POST /\
    url rq = LIBRETRANSLATE_API_URL /\
    timeout rq = 10 /\
    json_payload rq
    = Some (JObj [(lit "q", JStr text); (lit "source", JStr (lit "en"));
                  (lit "target", JStr (lit "as")); (lit "format", JStr (lit "text"))]) /\
    (lit "Content-Type", lit "application/json") ∈ headers rq /\
    forall v,
      (lit "Authorization", v) ∈ headers rq <->
      exists k, environ_LIBRETRANSLATE_API_KEY c = Some k /\ k <> [] /\
                v = lit "Bearer " ++ k.
Proof.
  destruct (libretranslate_run c text w) as (r & l & ->).
  eexists. split; [reflexivity|].
  repeat (split; [reflexivity|]).
  unfold libretranslate_request, pystr_eqb; cbn [headers].
  destruct (environ_LIBRETRANSLATE_API_KEY c) as [k|]; [case_bool_decide|].
  - subst k. split; [apply list_elem_of_here|].
    intros v. rewrite list_elem_of_singleton. split.
    + intros Hk. apply (f_equal fst) in Hk. vm_compute in Hk. discriminate Hk.
    + by intros (k & [= <-] & Hk & _).
  - split; [apply list_elem_of_here|].
    intros v. rewrite elem_of_app, !list_elem_of_singleton. split.
    + intros [Hk|[= ->]]; [|eauto].
      apply (f_equal fst) in Hk. vm_compute in Hk. discriminate Hk.
    + intros (k' & [= <-] & _ & ->). by right.
  - split; [apply list_elem_of_here|].
    intros v. rewrite list_elem_of_singleton. split.
    + intros Hk. apply (f_equal fst) in Hk. vm_compute in Hk. discriminate Hk.
    + by intros (k & [=] & _).
Qed.

Lemma libretranslate_call_with_key :
  exists rq,
    net (snd (translate_with_libretranslate
                (with_api_key failing_providers (Some (lit "secret")))
                (lit "Hello") w0)) = [rq] /\
    (lit "Authorization", lit "Bearer secret") ∈ headers rq.
Proof.
  destruct (libretranslate_call (with_api_key failing_providers (Some (lit "secret")))
                                (lit "Hello") w0)
    as (rq & Hnet & _ & _ & _ & _ & _ & Hauth).
  exists rq. split; [exact Hnet|].
  apply Hauth. exists (lit "secret"). by repeat split.
Defined.

(** ** More on the request handler *)

Lemma dict_get_absent d key default :
  (forall v, (key, v) ∉ d) -> dict_get d key default = default.
Proof.
  induction d as [|[k v] d IH]; cbn; [done|]. intros H.
  unfold pystr_eqb. case_bool_decide as Hk.
  - subst k. destruct (H v). apply list_elem_of_here.
  - apply IH. intros v' Hv'. apply (H v'). by apply list_elem_of_further.
Qed.

Lemma net_after_success c text t service w :
  net (snd (after_success c text t service w)) = net w.
Proof.
  unfold after_success. destruct (current_user c); [apply net_saved|done].
Qed.

(** The fallback sequence, with what is known of a text it returns. *)
Lemma try_providers_answer c text w :
  exists o w' calls,
    try_providers c text w = (o, w') /\
    net w' = net w ++ calls /\
    let rqA := mymemory_request text in
    let rqB := libretranslate_request (environ_LIBRETRANSLATE_API_KEY c) text in
    ((exists t service wS,
        (o, w') = after_success c text t service wS /\
        t <> [] /\ trimmed t /\
        (service = lit "MyMemory" /\ calls = [rqA] \/
         service = lit "LibreTranslate" /\ calls = [rqA; rqB]) /\
        rows wS = rows w) \/
     (o = Ret (error_response msg_unavailable 503) /\ calls = [rqA; rqB] /\
      rows w' = rows w)).
Proof.
  destruct (try_providers_run c text w) as (rA & lA & rB & lB & HA & HB & ->).
  destruct (if_truthy rA) as [t|] eqn:HtA.
  - apply if_truthy_Some in HtA as [-> Hne].
    apply mymemory_text in HA as [Htr _].
    eexists _, _, _. split; [apply surjective_pairing|].
    split; [by rewrite net_after_success|].
    left. eexists _, _, _.
    split; [symmetry; apply surjective_pairing|].
    split; [exact Hne|]. split; [exact Htr|].
    split; [by left|]. done.
  - destruct (if_truthy rB) as [t|] eqn:HtB.
    + apply if_truthy_Some in HtB as [-> Hne].
      apply libretranslate_text in HB as [Htr _].
      eexists _, _, _. split; [apply surjective_pairing|].
      split; [rewrite net_after_success; cbn [net]; by rewrite <- app_assoc|].
      left. eexists _, _, _.
      split; [symmetry; apply surjective_pairing|].
      split; [exact Hne|]. split; [exact Htr|].
      split; [by right|]. done.
    + eexists _, _, _. split; [reflexivity|].
      split; [cbn [net]; by rewrite <- app_assoc|].
      right. by repeat split.
Qed.

(** X7: the handler answers 400 exactly when the body is an object
    whose [text] is missing or is a string made of whitespace only. *)
Theorem bad_request_iff c w :
  (exists body w', translate c w = (Ret (body, 400), w')) <->
  (exists d raw,
     request_get_json c = Ret (JObj d) /\
     dict_get d (lit "text") (JStr []) = JStr raw /\
     blank raw).
Proof.
  rewrite translate_of_try. split.
  - intros (body & w' & H).
    destruct (translate_try_cases c w)
      as [(e & He & _)|(d & raw & Hj & Ht & [[Hs He]|[_ He]])];
      rewrite He in H.
    + injection H as H _.
      destruct (except_response_status e) as [Hx|[Hx|Hx]];
        rewrite H in Hx; discriminate Hx.
    + exists d, raw. by rewrite <- strip_blank.
    + destruct (try_providers_cases c (strip raw) w)
        as (o & w1 & Hrun
            & [(t & svc & wS & u & -> & _)|[[-> _]|(e & -> & _)]]);
        rewrite Hrun in H; [discriminate H..|].
      injection H as H _.
      destruct (except_response_status e) as [Hx|[Hx|Hx]];
        rewrite H in Hx; discriminate Hx.
  - intros (d & raw & Hj & Ht & Hb). apply strip_blank in Hb.
    rewrite (translate_try_text c w d raw Hj Ht), Hb. by eexists _, _.
Qed.

Lemma bad_request_iff_tabs :
  exists body w',
    translate (scenario (request_body [9; 32; 160; 10]%N) None
                        (Ret (mymemory_ok namaskar)) (Raise ReadTimeout) None) w0
    = (Ret (body, 400), w').
Proof.
  apply bad_request_iff.
  exists [(lit "text", JStr [9; 32; 160; 10]%N)], [9; 32; 160; 10]%N.
  split; [reflexivity|]. split; [vm_compute; reflexivity|].
  repeat constructor.
Defined.

(** X8: an object without a [text] key is answered like an empty text:
    400, and nothing else happens. *)
Theorem missing_text_is_rejected c w d :
  request_get_json c = Ret (JObj d) ->
  (forall v, (lit "text", v) ∉ d) ->
  translate c w = (Ret (error_response msg_enter_text 400), w).
Proof.
  intros Hj Hd.
  rewrite translate_of_try, (translate_try_text c w d [] Hj).
  - reflexivity.
  - by apply dict_get_absent.
Qed.

Lemma missing_text_is_rejected_other_key :
  translate (scenario (Ret (JObj [(lit "q", JStr (lit "Hello"))])) None
                      (Ret (mymemory_ok namaskar)) (Raise ReadTimeout) None) w0
  = (Ret (error_response msg_enter_text 400), w0).
Proof.
  apply (missing_text_is_rejected _ w0 [(lit "q", JStr (lit "Hello"))]);
    [reflexivity|].
  intros v Hv. apply list_elem_of_singleton in Hv.
  apply (f_equal fst) in Hv. vm_compute in Hv. discriminate Hv.
Defined.

(** X9: a [text] that is present but not a string ([null], a number, a
    list, ...) is not a 400: [strip] raises, and the answer is the
    generic 500 with the [AttributeError] logged.  No provider is called. *)
Theorem non_string_text_is_500 c w d v :
  request_get_json c = Ret (JObj d) ->
  dict_get d (lit "text") (JStr []) = v ->
  (forall s, v <> JStr s) ->
  translate c w
  = (Ret (error_response msg_unexpected 500),
     logged ERROR (lit "Translation error: " ++ exn_str (AttributeError v "strip")) w).
Proof.
  intros Hj Ht Hv. handler. rewrite Hj, Ht.
  destruct v; try reflexivity. by destruct (Hv s).
Qed.

Lemma non_string_text_is_500_null :
  translate (scenario (Ret (JObj [(lit "text", JNull)])) None
                      (Ret (mymemory_ok namaskar)) (Raise ReadTimeout) None) w0
  = (Ret (error_response msg_unexpected 500),
     logged ERROR (lit "Translation error: "
                     ++ lit "'NoneType' object has no attribute 'strip'") w0).
Proof.
  apply (non_string_text_is_500 _ w0 [(lit "text", JNull)] JNull);
    [reflexivity | vm_compute; reflexivity | discriminate].
Defined.

(** X10: when [request.get_json()] raises, no provider is called and
    no row is written.  The answer follows the [except] clauses, and only
    the last of them logs: a [Timeout] or a [ConnectionError] is answered
    without a log entry. *)
Theorem body_parse_failure c w e :
  request_get_json c = Raise e ->
  translate c w
  = (Ret (except_response e),
     if isinstance_Timeout e || isinstance_ConnectionError e then w
     else logged ERROR (lit "Translation error: " ++ exn_str e) w).
Proof.
  intros Hj. rewrite translate_of_try, translate_try_blocks.
  cbv [bind lift]. by rewrite Hj.
Qed.

Lemma body_parse_failure_bad_request :
  translate (scenario (Raise BadRequest) None
                      (Ret (mymemory_ok namaskar)) (Raise ReadTimeout) None) w0
  = (Ret (error_response msg_unexpected 500),
     logged ERROR (lit "Translation error: " ++ lit "400 Bad Request") w0).
Proof.
  apply (body_parse_failure
           (scenario (Raise BadRequest) None
                     (Ret (mymemory_ok namaskar)) (Raise ReadTimeout) None)
           w0 BadRequest).
  reflexivity.
Defined.

Lemma new_row_rows c uid text t service w1 w2 :
  rows w1 = rows w2 ->
  new_row c uid text t service w1 = new_row c uid text t service w2.
Proof. unfold new_row. by intros ->. Qed.

(** Every run of the handler, with the calls it made and the rows it
    added. *)
Lemma translate_inv c w :
  exists resp w' calls new,
    translate c w = (Ret resp, w') /\
    net w' = net w ++ calls /\
    rows w' = rows w ++ new /\
    ((calls = [] /\ new = [] /\
      (resp = error_response msg_enter_text 400 \/ exists e, resp = except_response e)) \/
     (exists d raw,
        request_get_json c = Ret (JObj d) /\
        dict_get d (lit "text") (JStr []) = JStr raw /\
        strip raw <> [] /\
        let text := strip raw in
        let rqA := mymemory_request text in
        let rqB := libretranslate_request (environ_LIBRETRANSLATE_API_KEY c) text in
        ((resp = error_response msg_unavailable 503 /\ calls = [rqA; rqB] /\ new = []) \/
         (exists t service,
            t <> [] /\ trimmed t /\
            (service = lit "MyMemory" /\ calls = [rqA] \/
             service = lit "LibreTranslate" /\ calls = [rqA; rqB]) /\
            ((exists u,
                current_user c = Ret u /\
                resp = success_response t text service /\
                new = match u, db_fault c with
                      | Some uid, None => [new_row c uid text t service w]
                      | _, _ => []
                      end) \/
             (exists e,
                current_user c = Raise e /\
                resp = except_response e /\
                new = [])))))).
Proof.
  rewrite translate_of_try.
  destruct (translate_try_cases c w)
    as [(e & -> & _)|(d & raw & Hj & Ht & [[_ ->]|[Hne ->]])].
  - eexists _, _, [], []. split; [reflexivity|].
    split; [by destruct (_ || _); rewrite app_nil_r|].
    split; [by destruct (_ || _); rewrite app_nil_r|].
    left. eauto.
  - eexists _, _, [], []. split; [reflexivity|].
    rewrite !app_nil_r. do 2 (split; [reflexivity|]). left. eauto.
  - destruct (try_providers_answer c (strip raw) w)
      as (o & w' & calls & -> & Hnet & H).
    cbv zeta in H.
    destruct H as [(t & svc & wS & Ho & Hnt & Htr & Hsvc & Hrows)
                  |(-> & -> & Hrows)].
    + unfold after_success in Ho.
      destruct (current_user c) as [u|e] eqn:Hu; injection Ho as -> ->.
      * eexists _, _, calls, _. split; [reflexivity|]. split; [exact Hnet|].
        split; [rewrite rows_saved, Hrows, Hu; reflexivity|].
        right. exists d, raw. do 3 (split; [done|]). cbv zeta. right.
        exists t, svc. do 3 (split; [done|]). left. exists u.
        do 2 (split; [done|]).
        destruct u; [|done]. destruct (db_fault c); [done|].
        by rewrite (new_row_rows _ _ _ _ _ wS w Hrows).
      * eexists _, _, calls, []. split; [reflexivity|].
        split; [by destruct (_ || _)|].
        split; [destruct (_ || _); cbn [rows logged]; by rewrite app_nil_r|].
        right. exists d, raw. do 3 (split; [done|]). cbv zeta. right.
        exists t, svc. do 3 (split; [done|]). right. by exists e.
    + eexists _, _, _, []. split; [reflexivity|]. split; [exact Hnet|].
      split; [by rewrite app_nil_r|].
      right. exists d, raw. do 3 (split; [done|]). cbv zeta. by left.
Qed.

(** X11: the calls of a request are none, the one call to MyMemory, or
    that call followed by one to LibreTranslate, each with the trimmed
    text and a timeout of 10.  A 400 means no call; a success of MyMemory
    means the one call to MyMemory; a success of LibreTranslate or the
    503 "unavailable" means both calls.  An answer of the [except]
    clauses comes after no call when the body or its text could not be
    read, and after one or two calls when the user lookup raised once a
    provider had returned a text. *)
Theorem calls_of_response c w resp w' :
  translate c w = (Ret resp, w') ->
  exists calls,
    net w' = net w ++ calls /\
    Forall (fun rq => timeout rq = 10) calls /\
    ((calls = [] /\
      (resp = error_response msg_enter_text 400 \/ exists e, resp = except_response e)) \/
     (exists text,
        trimmed text /\ text <> [] /\
        let rqA := mymemory_request text in
        let rqB := libretranslate_request (environ_LIBRETRANSLATE_API_KEY c) text in
        let lookup_raised :=
          exists e, current_user c = Raise e /\ resp = except_response e in
        (calls = [rqA] /\
         ((exists t, resp = success_response t text (lit "MyMemory")) \/
          lookup_raised) \/
         calls = [rqA; rqB] /\
         (resp = error_response msg_unavailable 503 \/
          (exists t, resp = success_response t text (lit "LibreTranslate")) \/
          lookup_raised)))).
Proof.
  intros H.
  destruct (translate_inv c w) as (resp' & w1 & calls & new & Hrun & Hnet & _ & Hc).
  rewrite Hrun in H. injection H as <- <-.
  exists calls. split; [exact Hnet|].
  destruct Hc as [(-> & _ & Hr)|(d & raw & _ & _ & Hne & Hc)].
  - split; [constructor|]. by left.
  - cbv zeta in Hc.
    assert (trimmed (strip raw)) as Htr by apply strip_trimmed.
    destruct Hc as [(-> & -> & _)|(t & svc & _ & _ & Hsvc & Hr)].
    + split; [by repeat constructor|]. right. exists (strip raw).
      split; [exact Htr|]. split; [exact Hne|]. cbv zeta. right. eauto.
    + destruct Hsvc as [[-> ->]|[-> ->]].
      * split; [by repeat constructor|]. right. exists (strip raw).
        split; [exact Htr|]. split; [exact Hne|]. cbv zeta. left.
        split; [done|].
        destruct Hr as [(u & _ & -> & _)|(e & He & -> & _)]; [left|right]; eauto.
      * split; [by repeat constructor|]. right. exists (strip raw).
        split; [exact Htr|]. split; [exact Hne|]. cbv zeta. right.
        split; [done|]. right.
        destruct Hr as [(u & _ & -> & _)|(e & He & -> & _)]; [left|right]; eauto.
Qed.

Lemma calls_of_response_blank :
  (exists calls,
     net (snd (translate blank_mymemory w0)) = net w0 ++ calls /\
     Forall (fun rq => timeout rq = 10) calls) /\
  (exists calls,
     net (snd (translate lookup_down w0)) = net w0 ++ calls /\
     Forall (fun rq => timeout rq = 10) calls).
Proof.
  split.
  - destruct (calls_of_response blank_mymemory w0
                (error_response msg_unavailable 503)
                (snd (translate blank_mymemory w0))
                ltac:(vm_compute; reflexivity))
      as (calls & Hnet & Hto & _).
    by exists calls.
  - destruct (calls_of_response lookup_down w0
                (error_response msg_unexpected 500)
                (snd (translate lookup_down w0))
                ltac:(vm_compute; reflexivity))
      as (calls & Hnet & Hto & _).
    by exists calls.
Defined.

(** X12: in a 200 answer both texts are non-empty and have no
    whitespace at either end: the original text is the trimmed request
    text, the translated text is the trimmed text of the provider. *)
Theorem success_texts_are_trimmed c w body w' :
  translate c w = (Ret (body, 200), w') ->
  exists t text service,
    (body, 200) = success_response t text service /\
    text <> [] /\ trimmed text /\ t <> [] /\ trimmed t.
Proof.
  intros H.
  destruct (translate_inv c w) as (resp' & w1 & calls & new & Hrun & _ & _ & Hc).
  rewrite Hrun in H. injection H as -> <-.
  destruct Hc as [(_ & _ & [Hr|[e Hr]])|(d & raw & _ & _ & Hne & Hc)].
  - discriminate Hr.
  - destruct (except_response_status e) as [Hx|[Hx|Hx]];
      rewrite <- Hr in Hx; discriminate Hx.
  - cbv zeta in Hc.
    destruct Hc as [(Hr & _)|(t & svc & Hnt & Htr & _ & Hr)]; [discriminate Hr|].
    destruct Hr as [(u & _ & Hr & _)|(e & _ & Hr & _)].
    + exists t, (strip raw), svc. split; [exact Hr|].
      split; [exact Hne|]. split; [apply strip_trimmed|]. by split.
    + destruct (except_response_status e) as [Hx|[Hx|Hx]];
        rewrite <- Hr in Hx; discriminate Hx.
Qed.

Lemma success_texts_are_trimmed_hello :
  exists t text service,
    success_response namaskar (lit "Hello") (lit "MyMemory")
    = success_response t text service /\
    text <> [] /\ trimmed text /\ t <> [] /\ trimmed t.
Proof.
  apply (success_texts_are_trimmed
           (scenario (request_body (lit " Hello ")) None
                     (Ret (mymemory_ok namaskar)) (Raise ReadTimeout) None)
           w0 _
           (called (mymemory_request (lit "Hello"))
                   (logged INFO msg_attempt_mymemory w0))).
  vm_compute. reflexivity.
Defined.

(** X13: the handler keeps the table well formed.  If every row has an
    owner, non-empty trimmed texts and one of the two service names, then
    so has every row after the request; the rows that were there are
    still there, in place. *)
Theorem translate_keeps_rows_well_formed c w :
  Forall well_formed_row (rows w) ->
  Forall well_formed_row (rows (snd (translate c w))) /\
  exists new, rows (snd (translate c w)) = rows w ++ new.
Proof.
  intros Hw.
  destruct (translate_inv c w) as (resp & w' & calls & new & -> & _ & Hrows & Hc).
  cbn [snd]. split; [|by exists new].
  rewrite Hrows. apply Forall_app. split; [exact Hw|].
  destruct Hc as [(_ & -> & _)|(d & raw & _ & _ & Hne & Hc)]; [constructor|].
  cbv zeta in Hc.
  destruct Hc as [(_ & _ & ->)|(t & svc & Hnt & Htr & Hsvc & Hr)];
    [constructor|].
  destruct Hr as [(u & _ & _ & ->)|(e & _ & _ & ->)]; [|constructor].
  destruct u as [uid|]; [|constructor].
  destruct (db_fault c); constructor; [|constructor].
  unfold well_formed_row, new_row. cbn.
  split; [by eexists|]. split; [exact Hne|]. split; [apply strip_trimmed|].
  split; [exact Hnt|]. split; [exact Htr|].
  destruct Hsvc as [[-> _]|[-> _]]; auto.
Qed.

Lemma translate_keeps_rows_well_formed_hello :
  Forall well_formed_row (rows (snd (translate storage_up w0))).
Proof.
  apply (translate_keeps_rows_well_formed storage_up w0). constructor.
Defined.

(** ** More on the history page *)

(** X14: the page of an authenticated caller shows as many rows as the
    caller owns, up to 50; when the caller owns at most 50 rows it shows
    all of them. *)
Theorem history_shows_all_up_to_50 c w uid :
  current_user c = Ret (Some uid) ->
  exists ts,
    history c w = Ret (render_template (lit "history.html") ts) /\
    length ts = (50 `min` length (owned uid (rows w)))%nat /\
    ((length (owned uid (rows w)) <= 50)%nat -> ts ≡ₚ owned uid (rows w)).
Proof.
  intros Hu. unfold history. rewrite Hu.
  exists (query_history uid (rows w)). split; [reflexivity|].
  unfold query_history, owned.
  set (l := filter _ (rows w)).
  split.
  - by rewrite length_take, (Permutation_length (merge_sort_Permutation _ l)).
  - intros Hl. rewrite take_ge.
    + apply merge_sort_Permutation.
    + by rewrite (Permutation_length (merge_sort_Permutation _ l)).
Qed.

Lemma history_shows_all_up_to_50_u1 :
  exists ts,
    history (scenario (request_body []) (Some (lit "u1"))
                      (Raise ReadTimeout) (Raise ReadTimeout) None) some_rows
    = Ret (render_template (lit "history.html") ts) /\
    length ts = (50 `min` length (owned (lit "u1") (rows some_rows)))%nat /\
    ((length (owned (lit "u1") (rows some_rows)) <= 50)%nat ->
     ts ≡ₚ owned (lit "u1") (rows some_rows)).
Proof.
  apply (history_shows_all_up_to_50
           (scenario (request_body []) (Some (lit "u1"))
                     (Raise ReadTimeout) (Raise ReadTimeout) None)
           some_rows (lit "u1")).
  reflexivity.
Defined.

(** X15: a request to [/translate] never changes what another caller
    sees on [/history]. *)
Theorem translate_keeps_other_histories c c' w :
  current_user c <> current_user c' ->
  history c' (snd (translate c w)) = history c' w.
Proof.
  intros Hu. unfold history.
  destruct (current_user c') as [[uid'|]|e']; [|reflexivity..].
  do 2 f_equal.
  destruct (translate_inv c w) as (resp & w' & calls & new & -> & _ & Hrows & Hc).
  cbn [snd]. rewrite Hrows. unfold query_history. rewrite filter_app.
  assert (filter (fun t => models.user_id t = Some uid') new = []) as ->;
    [|by rewrite app_nil_r].
  destruct Hc as [(_ & -> & _)|(d & raw & _ & _ & _ & Hc)]; [done|].
  cbv zeta in Hc.
  destruct Hc as [(_ & _ & ->)|(t & svc & _ & _ & _ & Hr)]; [done|].
  destruct Hr as [(u & Hcu & _ & ->)|(e & _ & _ & ->)]; [|done].
  destruct u as [uid|]; [|done].
  destruct (db_fault c); [done|].
  rewrite filter_cons_False; [done|].
  unfold new_row. cbn. congruence.
Qed.

Lemma translate_keeps_other_histories_u2 :
  history (scenario (request_body []) (Some (lit "u2"))
                    (Raise ReadTimeout) (Raise ReadTimeout) None)
          (snd (translate storage_up some_rows))
  = history (scenario (request_body []) (Some (lit "u2"))
                      (Raise ReadTimeout) (Raise ReadTimeout) None)
            some_rows.
Proof.
  apply (translate_keeps_other_histories storage_up). vm_compute. discriminate.
Defined.

Lemma merge_sort_newest_first_head l nr :
  (forall r, r ∈ l -> models.created_at r < models.created_at nr) ->
  exists rest, merge_sort newest_first (l ++ [nr]) = nr :: rest.
Proof.
  intros Hl.
  pose proof (merge_sort_Permutation newest_first (l ++ [nr])) as Hp.
  pose proof (StronglySorted_merge_sort newest_first (l ++ [nr])) as Hs.
  destruct (merge_sort newest_first (l ++ [nr])) as [|h tl].
  - apply Permutation_nil_l in Hp. by destruct l.
  - assert (h ∈ l ++ [nr]) as Hh by (rewrite <- Hp; apply list_elem_of_here).
    assert (nr ∈ h :: tl) as Hn.
    { rewrite Hp. apply elem_of_app. right. apply list_elem_of_here. }
    apply elem_of_app in Hh as [Hh|Hh].
    + apply Hl in Hh. apply elem_of_cons in Hn as [->|Hn]; [lia|].
      apply StronglySorted_inv in Hs as [_ Hs].
      rewrite Forall_forall in Hs. specialize (Hs nr Hn).
      unfold newest_first in Hs. lia.
    + apply list_elem_of_singleton in Hh as ->. by exists tl.
Qed.

(** X16: after a request of an authenticated caller has been answered
    with a translation and the storage has not raised, the caller's
    history page starts with that translation, provided the clock was
    past the creation time of the caller's earlier rows. *)
Theorem new_translation_tops_history c w uid t text service w' :
  translate c w = (Ret (success_response t text service), w') ->
  current_user c = Ret (Some uid) ->
  db_fault c = None ->
  (forall r, r ∈ rows w -> models.user_id r = Some uid -> models.created_at r < now c) ->
  exists rest,
    history c w'
    = Ret (render_template (lit "history.html")
             ({| models.id := next_id (rows w);
                 models.user_id := Some uid;
                 models.original_text := text;
                 models.translated_text := t;
                 models.service_used := service;
                 models.created_at := now c |} :: rest)).
Proof.
  intros H Hu Hf Hnow.
  destruct (translate_inv c w) as (resp & w1 & calls & new & Hrun & _ & Hrows & Hc).
  rewrite Hrun in H. injection H as -> <-.
  destruct Hc as [(_ & _ & [Hr|[e Hr]])|(d & raw & _ & _ & _ & Hc)].
  - discriminate Hr.
  - destruct (except_response_status e) as [Hx|[Hx|Hx]];
      rewrite <- Hr in Hx; discriminate Hx.
  - cbv zeta in Hc.
    destruct Hc as [(Hr & _)|(t' & svc & _ & _ & _ & Hr)]; [discriminate Hr|].
    destruct Hr as [(u & Hcu & Hr & Hnew)|(e & Hcu & _)]; [|congruence].
    rewrite Hu in Hcu. injection Hcu as <-.
    injection Hr as -> -> ->. rewrite Hf in Hnew. subst new.
    unfold history. rewrite Hu. unfold query_history.
    rewrite Hrows, filter_app.
    rewrite (filter_cons_True _ (new_row c uid (strip raw) t' svc w)) by done.
    rewrite filter_nil.
    destruct (merge_sort_newest_first_head
                (filter (fun t => models.user_id t = Some uid) (rows w))
                (new_row c uid (strip raw) t' svc w)) as [rest ->].
    + intros r Hr. apply list_elem_of_filter in Hr as [Hr1 Hr2]. by apply Hnow.
    + by exists (take 49 rest).
Qed.

Lemma new_translation_tops_history_u1 :
  exists rest,
    history storage_up
            (snd (translate storage_up
                    {| logs := []; net := [];
                       rows := [row 1 (Some (lit "u1")) 10;
                                row 2 (Some (lit "u2")) 1800000000] |}))
    = Ret (render_template (lit "history.html")
             ({| models.id := 3;
                 models.user_id := Some (lit "u1");
                 models.original_text := lit "Hello";
                 models.translated_text := namaskar;
                 models.service_used := lit "MyMemory";
                 models.created_at := 1700000000 |} :: rest)).
Proof.
  apply (new_translation_tops_history storage_up
           {| logs := []; net := [];
              rows := [row 1 (Some (lit "u1")) 10;
                       row 2 (Some (lit "u2")) 1800000000] |}
           (lit "u1") namaskar (lit "Hello") (lit "MyMemory")).
  - vm_compute. reflexivity.
  - reflexivity.
  - reflexivity.
  - intros r Hr Hu.
    apply elem_of_cons in Hr as [->|Hr]; [by vm_compute|].
    apply list_elem_of_singleton in Hr as ->.
    vm_compute in Hu. discriminate Hu.
Defined.
